(** * SarthiR-BOT: the retrieval-and-augmentation decision engine

    A shallow embedding of the decision logic of the UDCPR chatbot:

    - [ChatHandler]  : the web-search decision of [handle_chat_input]
                       (src/chat_handler.py);
    - [ChatbotWeb]   : the web-search decision block of the module-level
                       chat handler (src/chatbot_web.py);
    - [WebSearch]    : [perform_web_search] and
                       [format_search_results_for_context]
                       (src/web_search.py);
    - [Streamlit]    : [format_context_from_results] and
                       [create_chat_prompt]
                       (src/udcpr_chatbot_streamlit.py);
    - [ApiServer]    : [format_context_from_results],
                       [create_chat_prompt] and the [/chat] endpoint
                       (src/api_server.py).

    Text is a [string] whose characters are the code points 0..255; on
    that range [Py.lower], [Py.isspace] and [Py.strip] are Python's
    [str.lower], [str.isspace] and [str.strip].  Similarity scores are
    IEEE binary64 numbers ([PrimFloat.float]), compared as Python compares
    them.  Everything the program obtains from the outside (the vector
    index, the search engines, the completion service, the clock, the
    UUID generator) is an explicit argument. *)

From Stdlib Require Import PrimFloat.
From Stdlib Require Import ZArith Ascii String List Bool Lia.
From Stdlib Require Import DecimalString.
From stdpp Require Import base option list strings gmap.

Set Warnings "-inexact-float".

Local Open Scope string_scope.
Local Open Scope list_scope.

(** ** Python's string operations *)

Module Py.

(** [str.lower] on one code point below 256: the ASCII capitals and the
    Latin-1 capitals U+00C0..U+00DE, the multiplication sign U+00D7
    apart, move up by 32. *)
Definition lower_char (c : ascii) : ascii :=
  let n := nat_of_ascii c in
  if ((65 <=? n)%nat && (n <=? 90)%nat)
     || ((192 <=? n)%nat && (n <=? 222)%nat && negb (n =? 215)%nat)
  then ascii_of_nat (n + 32)
  else c.

Fixpoint lower (s : string) : string :=
  match s with
  | EmptyString => EmptyString
  | String c s' => String (lower_char c) (lower s')
  end.

(** [str.isspace] on one code point below 256. *)
Definition isspace (c : ascii) : bool :=
  let n := nat_of_ascii c in
  ((9 <=? n)%nat && (n <=? 13)%nat)
  || ((28 <=? n)%nat && (n <=? 32)%nat)
  || (n =? 133)%nat || (n =? 160)%nat.

Fixpoint lstrip (s : string) : string :=
  match s with
  | EmptyString => EmptyString
  | String c s' => if isspace c then lstrip s' else s
  end.

(** Drops trailing whitespace: a character is kept when it is not a
    space or when something is kept after it. *)
Fixpoint rstrip (s : string) : string :=
  match s with
  | EmptyString => EmptyString
  | String c s' =>
      match rstrip s' with
      | EmptyString => if isspace c then EmptyString else String c EmptyString
      | r => String c r
      end
  end.

Definition strip (s : string) : string := rstrip (lstrip s).

(** [len(s)] *)
Definition len (s : string) : nat := String.length s.

(** [s.startswith(p)] *)
Fixpoint startswith (p s : string) : bool :=
  match p, s with
  | EmptyString, _ => true
  | String a p', String b s' => if Ascii.eqb a b then startswith p' s' else false
  | String _ _, EmptyString => false
  end.

(** [p in s] for two strings: [p] occurs in [s] as a substring. *)
Fixpoint contains (p s : string) : bool :=
  match s with
  | EmptyString => startswith p EmptyString
  | String _ s' => startswith p s || contains p s'
  end.

(** [any(k in s for k in keys)] *)
Definition any_in (keys : list string) (s : string) : bool :=
  existsb (fun k => contains k s) keys.

(** Truth value of a string: the empty string is false. *)
Definition truthy (s : string) : bool :=
  match s with EmptyString => false | String _ _ => true end.

(** [s.split(sep)[0]]: the text before the first occurrence of [sep],
    all of [s] when there is none ([sep] not empty). *)
Fixpoint before (sep s : string) : string :=
  match s with
  | EmptyString => EmptyString
  | String c s' => if startswith sep s then EmptyString else String c (before sep s')
  end.

(** [s[n:]] for [0 <= n]. *)
Fixpoint drop (n : nat) (s : string) : string :=
  match n, s with
  | O, _ => s
  | S n', String _ s' => drop n' s'
  | S _, EmptyString => EmptyString
  end.

(** [l[:n]] for a list and any integer [n]: a negative [n] counts from
    the end. *)
Definition slice_to {A} (n : Z) (l : list A) : list A :=
  if (0 <=? n)%Z then firstn (Z.to_nat n) l
  else firstn (length l - Z.to_nat (- n)) l.

(** [l[-n:]] for a list and [0 <= n]: the last [n] elements, all of [l]
    when it has fewer; [l[-0:]] is [l[0:]], the whole list. *)
Definition slice_last {A} (n : nat) (l : list A) : list A :=
  match n with
  | O => l
  | S _ => skipn (length l - n) l
  end.

(** [str(z)] for an integer. *)
Definition str_of_Z (z : Z) : string := NilZero.string_of_int (Z.to_int z).

(** [x > y] on floats. *)
Definition gt (x y : float) : bool := PrimFloat.ltb y x.

(** The double quote and the degree sign U+00B0 as one-character strings. *)
Definition dquote : string := String (ascii_of_nat 34) EmptyString.
Definition degree : string := String (ascii_of_nat 176) EmptyString.

End Py.

(** ** Retrieved matches (the entries of Pinecone's ["matches"]) *)

(** A value stored under ["page_num"]: a number or a text. *)
Inductive PageVal : Type :=
| PageInt (n : Z)
| PageStr (s : string).

(** The metadata dictionary of a match; [None] is an absent key. *)
Record Metadata : Type := mkMetadata {
  md_text : option string;
  md_source : option string;
  md_page_num : option PageVal
}.

(** A match; [None] is an absent key. *)
Record Match : Type := mkMatch {
  m_id : string;
  m_score : option float;
  m_metadata : option Metadata
}.

(** [result.get("score", 0)] *)
Definition get_score (r : Match) : float := default 0%float (m_score r).

(** The loop [for result in results: if result.get("score", 0) > t: ...
    = True; break]. *)
Definition any_score_above (t : float) (results : list Match) : bool :=
  existsb (fun r => Py.gt (get_score r) t) results.

(** ** src/chat_handler.py *)

Module ChatHandler.

Definition greeting_patterns : list string :=
  ["hello"; "hi"; "hey"; "greetings"; "good morning"; "good afternoon";
   "good evening"; "how are you"; "what's up"; "howdy"].

Definition udcpr_keywords : list string :=
  ["udcpr"; "regulation"; "building"; "development"; "control"; "promotion";
   "maharashtra"; "construction"; "zoning"; "fsi"; "floor space"; "height";
   "setback"; "plot"; "land"; "urban"; "planning"; "architect"].

Definition external_info_keywords : list string :=
  ["recent"; "latest"; "new"; "update"; "amendment"; "change";
   "modified"; "revision"; "current"; "2023"; "2024"; "added"; "removed";
   "most"; "latest"; "changes"; "amendments"; "notifications"].

Definition force_web_search_phrases : list string :=
  ["most recent"; "latest update"; "new rules"; "recent changes";
   "latest amendment"; "current version"; "updated regulation";
   "what are the most recent"; "what are the latest"; "recent notification"].

Definition is_greeting (prompt : string) : bool :=
  Py.any_in greeting_patterns (Py.lower prompt).
Definition is_udcpr_related (prompt : string) : bool :=
  Py.any_in udcpr_keywords (Py.lower prompt).
Definition needs_external_info (prompt : string) : bool :=
  Py.any_in external_info_keywords (Py.lower prompt).
Definition force_web_search (prompt : string) : bool :=
  Py.any_in force_web_search_phrases (Py.lower prompt).

(** The value of [has_relevant_results] at the end of the decision
    block: [true] skips the web search. *)
Definition has_relevant_results (prompt : string) (results : list Match) : bool :=
  let has_any_results := (0 <? length results)%nat in
  if force_web_search prompt then false
  else if is_greeting prompt
          || (Py.len (Py.strip prompt) <? 10)%nat
          || (is_udcpr_related prompt && negb (needs_external_info prompt)
              && has_any_results)
  then true
  else any_score_above 0.75%float results.

End ChatHandler.

(** ** src/web_search.py *)

Module WebSearch.

(** One search result: the dictionary with the keys ["title"], ["link"],
    ["snippet"] and ["source"]. *)
Record WebResult : Type := mkWebResult {
  title : string;
  link : string;
  snippet : string;
  source : string
}.

(** What the scraper reads in one result container of a results page:
    the text of the title element ([None]: no title element) with the
    [href] the engine's rule looks at (the title element's own, for
    Google that of the enclosing [<a>]; [None]: no such element or
    attribute), and the text of the snippet element. *)
Record RawResult : Type := mkRawResult {
  raw_title : option (string * option string);
  raw_snippet : option string
}.

(** The world outside: per engine the containers of its results page,
    [None] when the request, the status check or the parsing raised;
    whether the direct request after the loop returned; whether an error
    escaped the inner handlers. *)
Record Env : Type := mkEnv {
  env_duckduckgo : option (list RawResult);
  env_bing : option (list RawResult);
  env_google : option (list RawResult);
  env_direct_ok : bool;
  env_outer_error : bool
}.

(** The query as it is after the rewriting at the top of the function. *)
Definition rewrite_query (query : string) : string :=
  let q := Py.lower query in
  if Py.contains "temperature" q || Py.contains "weather" q then
    if negb (Py.contains "current" q) && negb (Py.contains "now" q)
       && negb (Py.contains "today" q)
    then "current " +:+ query
    else query
  else if negb (Py.contains "udcpr" q)
          && Py.any_in ["regulation"; "building"; "development"; "control";
                        "promotion"; "maharashtra"] q
  then "UDCPR " +:+ query
  else if Py.any_in ["recent"; "latest"; "new"; "update"; "amendment"] q then
    if negb (Py.contains "udcpr" q)
    then "latest UDCPR updates Maharashtra " +:+ query
    else "latest " +:+ query +:+ " Maharashtra"
  else query.

(** The link of a title element: Google's redirect links are cleaned,
    [link.split("/url?q=")[1].split("&")[0]]. *)
Definition extract_link (engine : string) (href : option string) : string :=
  let link := default "" href in
  if String.eqb engine "Google" then
    if Py.startswith "/url?q=" link
    then Py.before "&" (Py.before "/url?q=" (Py.drop 7 link))
    else link
  else link.

(** The dictionary the body of the inner loop builds from one container;
    [None] when the body goes on to the next container (no title element)
    or finds the title or the link empty. *)
Definition extract_result (engine : string) (raw : RawResult) : option WebResult :=
  match raw_title raw with
  | None => None
  | Some (text, href) =>
      let title_ := Py.strip text in
      let link_ := extract_link engine href in
      let snippet_ := match raw_snippet raw with
                      | Some t => Py.strip t
                      | None => ""
                      end in
      if Py.truthy title_ && Py.truthy link_
      then Some (mkWebResult title_ link_ snippet_ engine)
      else None
  end.

(** The body of the loop over the containers of one page: the dictionary
    is appended unless a result with its title is in the list. *)
Definition add_result (engine : string) (results : list WebResult)
    (raw : RawResult) : list WebResult :=
  match extract_result engine raw with
  | None => results
  | Some r =>
      if negb (existsb (fun r' => String.eqb (title r') (title r)) results)
      then results ++ [r]
      else results
  end.

(** One turn of the loop over the engines: an engine that raised leaves
    the list as it is. *)
Definition scrape_engine (num_results : Z) (results : list WebResult)
    (engine : string * option (list RawResult)) : list WebResult :=
  match engine.2 with
  | None => results
  | Some raws => fold_left (add_result engine.1) (Py.slice_to num_results raws) results
  end.

Definition search_engines (env : Env) : list (string * option (list RawResult)) :=
  [("DuckDuckGo", env_duckduckgo env); ("Bing", env_bing env);
   ("Google", env_google env)].

(** The list [results] when the loop over the engines ends. *)
Definition scraped_results (num_results : Z) (env : Env) : list WebResult :=
  fold_left (scrape_engine num_results) (search_engines env) [].

(** The variables the weather branch sets from the query. *)
Record Weather : Type := mkWeather {
  location : string;
  weather_link : string;
  current_temp : string;
  conditions : string;
  specific_location : string
}.

Definition temp (a b : string) : string :=
  a +:+ Py.degree +:+ "F (" +:+ b +:+ Py.degree +:+ "C)".

Definition weather_of (q : string) : Weather :=
  if Py.contains "texas" q then
    let link_ := "https://forecast.weather.gov/MapClick.php?site=EWX&textField1=31.25&textField2=-99.41" in
    let cond := "partly cloudy with a chance of isolated thunderstorms" in
    if Py.contains "dallas" q then
      mkWeather "Texas, USA" link_ (temp "85-95" "29-35") cond "Dallas"
    else if Py.contains "houston" q then
      mkWeather "Texas, USA" link_ (temp "80-95" "27-35")
        "humid with a chance of afternoon showers" "Houston"
    else if Py.contains "austin" q then
      mkWeather "Texas, USA" link_ (temp "82-97" "28-36") cond "Austin"
    else if Py.contains "san antonio" q then
      mkWeather "Texas, USA" link_ (temp "83-98" "28-37") cond "San Antonio"
    else
      mkWeather "Texas, USA" link_ (temp "75-95" "24-35") cond "Texas"
  else if Py.contains "new york" q then
    mkWeather "New York, USA"
      "https://forecast.weather.gov/MapClick.php?site=OKX&textField1=40.71&textField2=-74.01"
      (temp "65-80" "18-27") "partly cloudy with occasional showers" "New York City"
  else if Py.contains "california" q || Py.contains "los angeles" q then
    mkWeather "Los Angeles, California, USA"
      "https://forecast.weather.gov/MapClick.php?site=LOX&textField1=34.05&textField2=-118.24"
      (temp "70-85" "21-29") "sunny with morning fog near the coast" "Los Angeles"
  else if Py.contains "chicago" q then
    mkWeather "Chicago, Illinois, USA"
      "https://forecast.weather.gov/MapClick.php?site=LOT&textField1=41.88&textField2=-87.63"
      (temp "65-80" "18-27") "partly cloudy with a chance of showers" "Chicago"
  else if Py.contains "florida" q || Py.contains "miami" q then
    mkWeather "Miami, Florida, USA"
      "https://forecast.weather.gov/MapClick.php?site=MFL&textField1=25.76&textField2=-80.19"
      (temp "80-90" "27-32") "partly cloudy with afternoon thunderstorms" "Miami"
  else
    mkWeather "the requested location" "https://www.weather.gov/"
      "varies by region" "varies by region" "the requested location".

Definition weather_results (w : Weather) : list WebResult :=
  [mkWebResult ("Current Weather in " +:+ location w) (weather_link w)
     ("The current temperature in " +:+ specific_location w
      +:+ " is approximately " +:+ current_temp w +:+ " with conditions "
      +:+ conditions w
      +:+ ". Weather patterns can change throughout the day, with temperatures typically peaking in the afternoon. The National Weather Service provides real-time updates for precise conditions.")
     "Weather Fallback"]
  ++ [mkWebResult ("Weather Forecast for " +:+ location w)
        "https://www.accuweather.com/"
        ("The forecast for " +:+ specific_location w +:+ " shows "
         +:+ conditions w +:+ " with temperatures around " +:+ current_temp w
         +:+ ". Humidity levels are moderate to high, and wind speeds are generally light to moderate. For hourly predictions, precipitation chances, and extended outlooks, check reliable weather services.")
        "Weather Resources"].

(** The canned records of the branch for queries about the regulations. *)
Definition udcpr_results (q : string) : list WebResult :=
  let results :=
    [mkWebResult "Maharashtra Urban Development Department - Official Website"
       "https://urban.maharashtra.gov.in/"
       "The Unified Development Control and Promotion Regulations (UDCPR) were introduced in December 2020 to standardize building regulations across Maharashtra (excluding Mumbai, MIDC areas, and Special Planning Authorities). The UDCPR covers zoning regulations, building heights, setbacks, FSI calculations, parking requirements, and other development controls."
       "UDCPR Fallback"] in
  let results :=
    if Py.contains "height" q || Py.contains "building height" q then
      results ++
      [mkWebResult "UDCPR Building Height Regulations"
         "https://urban.maharashtra.gov.in/udcpr"
         "The UDCPR specifies that the maximum height of buildings depends on the road width. For roads wider than 30m, the maximum height can be up to 70m (approximately 23 floors). For roads between 15-30m, the height limit is 50m. For roads between 9-15m, the height limit is 24m. All buildings taller than 15m require fire safety clearance."
         "UDCPR Height Regulations"]
    else if Py.contains "fsi" q || Py.contains "floor space" q || Py.contains "far" q then
      results ++
      [mkWebResult "UDCPR Floor Space Index (FSI) Regulations"
         "https://urban.maharashtra.gov.in/udcpr"
         "The basic FSI in residential zones ranges from 1.1 to 1.5 depending on the city category. Premium FSI can be purchased up to a maximum of 0.5. For commercial zones, the basic FSI ranges from 1.5 to 2.0. Transit-Oriented Development zones get an additional 0.5 FSI. Educational, medical, and public service buildings receive an additional 0.3 FSI."
         "UDCPR FSI Regulations"]
    else if Py.contains "parking" q then
      results ++
      [mkWebResult "UDCPR Parking Requirements"
         "https://urban.maharashtra.gov.in/udcpr"
         "For residential buildings, 1 parking space is required per apartment up to 100 sq.m. For larger apartments, 2 parking spaces are required. Commercial buildings require 1 parking space per 80 sq.m of built-up area. Additional visitor parking of 10% is mandatory for all developments with more than 10 units. Mechanical parking systems are permitted to maximize space utilization."
         "UDCPR Parking Regulations"]
    else
      results ++
      [mkWebResult "Unified Development Control and Promotion Regulations (UDCPR)"
         "https://urban.maharashtra.gov.in/udcpr"
         "The UDCPR covers all aspects of urban development including land use zoning, plot sizes, road widths, open spaces, amenities, special regulations for certain buildings, environmental considerations, and fire safety norms. It aims to create a uniform set of regulations across Maharashtra while allowing for local variations through special provisions."
         "UDCPR General Information"] in
  if Py.contains "latest" q || Py.contains "recent" q || Py.contains "update" q
     || Py.contains "new" q
  then
    results ++
    [mkWebResult "Recent UDCPR Amendments and Updates"
       "https://urban.maharashtra.gov.in/site/notification"
       "Recent amendments to the UDCPR include: 1) Increased FSI for redevelopment projects from 1.5 to 1.8 in certain urban areas, 2) Relaxation in side margins for narrow plots less than 9m wide, 3) New provisions for electric vehicle charging infrastructure requiring 20% of parking spaces to be EV-ready, 4) Green building incentives offering 5-10% additional FSI for buildings achieving gold or platinum green certification."
       "UDCPR Recent Updates"]
  else results.

Definition general_fallback : list WebResult :=
  [mkWebResult "Maharashtra Urban Development Department"
     "https://urban.maharashtra.gov.in/"
     "The Maharashtra Urban Development Department oversees urban planning, infrastructure development, and building regulations across the state. It implements the Unified Development Control and Promotion Regulations (UDCPR) which standardize building norms across municipalities. The department also manages town planning schemes, urban renewal projects, and smart city initiatives."
     "Fallback"].

(** The list assigned to [results] once the direct request has returned;
    [query] is the rewritten query. *)
Definition synthetic_results (query : string) : list WebResult :=
  let q := Py.lower query in
  if Py.contains "temperature" q || Py.contains "weather" q then
    weather_results (weather_of q)
  else if Py.contains "udcpr" q || Py.contains "maharashtra" q
          || Py.contains "urban development" q
          || Py.contains "building regulations" q
  then udcpr_results q
  else general_fallback.

(** The list assigned in the handler of the direct request. *)
Definition direct_failure_fallback : list WebResult :=
  [mkWebResult "Maharashtra Urban Development Department"
     "https://urban.maharashtra.gov.in/"
     "Official website of Maharashtra Urban Development Department where you can find the latest UDCPR updates and notifications."
     "Fallback"].

(** The list returned by the outermost handler. *)
Definition error_fallback : list WebResult :=
  [mkWebResult "Maharashtra Urban Development Department"
     "https://urban.maharashtra.gov.in/"
     "Official website of Maharashtra Urban Development Department where you can find the latest UDCPR updates and notifications."
     "Error Fallback"].

(** [perform_web_search(query, num_results)].  The list built by the loop
    over the engines is bound to [results] and then assigned anew in
    every branch that follows, as in the source. *)
Definition perform_web_search (query : string) (num_results : Z) (env : Env)
    : list WebResult :=
  if env_outer_error env then error_fallback
  else
    let query := rewrite_query query in
    let results := scraped_results num_results env in
    let results :=
      if env_direct_ok env then synthetic_results query
      else direct_failure_fallback in
    results.

(** [format_search_results_for_context(results)] *)
Definition mentions_udcpr (r : WebResult) : bool :=
  Py.contains "udcpr" (Py.lower (title r))
  || Py.contains "udcpr" (Py.lower (snippet r))
  || Py.contains "maharashtra" (Py.lower (title r))
  || Py.contains "maharashtra" (Py.lower (snippet r))
  || Py.contains "urban development" (Py.lower (title r))
  || Py.contains "urban development" (Py.lower (snippet r)).

Definition nl : string := String (ascii_of_nat 10) EmptyString.

Definition combined_info (results : list WebResult) : string :=
  fold_left (fun acc r => acc +:+ (title r +:+ ":" +:+ nl)
                              +:+ (snippet r +:+ nl +:+ nl))
            results "".

Definition format_search_results_for_context (results : list WebResult) : string :=
  match results with
  | [] => "No relevant information found from web search."
  | _ =>
    let is_udcpr_related := existsb mentions_udcpr results in
    let context :=
      if is_udcpr_related
      then "Information about UDCPR updates and regulations:" +:+ nl +:+ nl
      else "Information from web search:" +:+ nl +:+ nl in
    let context := context +:+ combined_info results in
    let context := context +:+ nl +:+ "Instructions for using web search results:" +:+ nl in
    let context := context +:+ "1. Use the above information to answer the user's question directly and completely." +:+ nl in
    let context := context +:+ "2. DO NOT mention sources or cite websites in your response." +:+ nl in
    let context := context +:+ "3. Present the information as factual knowledge, not as something you found from a search." +:+ nl in
    let context := context +:+ "4. If the search results contain real-time information like weather, prices, or current events, include this in your answer." +:+ nl in
    let context := context +:+ "5. If the information doesn't fully answer the question, acknowledge this limitation but still provide what you know." +:+ nl in
    if is_udcpr_related then
      context +:+ nl +:+ "IMPORTANT: Focus on providing the actual regulations and updates about UDCPR. "
              +:+ "Present this information directly as facts without mentioning sources." +:+ nl
    else context
  end.

End WebSearch.

(** ** Chat turns and the bounded history *)

(** A chat turn: the dictionary (or [ChatMessage]) with the keys ["role"]
    and ["content"]. *)
Record ChatTurn : Type := mkTurn {
  role : string;
  content : string
}.

Definition MAX_HISTORY_MESSAGES : nat := 10.

(** The history update that ends a chat turn at every call site: the
    user turn and the assistant turn are appended, then
    [if len(h) > MAX_HISTORY_MESSAGES: h = h[-MAX_HISTORY_MESSAGES:]]. *)
Definition limit_history (h : list ChatTurn) : list ChatTurn :=
  if (MAX_HISTORY_MESSAGES <? length h)%nat
  then Py.slice_last MAX_HISTORY_MESSAGES h
  else h.

Definition update_history (h : list ChatTurn) (prompt full_response : string)
    : list ChatTurn :=
  limit_history (h ++ [mkTurn "user" prompt] ++ [mkTurn "assistant" full_response]).

(** The rendering of a page value inside an f-string. *)
Definition str_of_page (p : PageVal) : string :=
  match p with
  | PageInt n => Py.str_of_Z n
  | PageStr s => s
  end.

(** [result.get("metadata", {}).get(key, default)] for the three keys. *)
Definition get_text (r : Match) : string :=
  default "" (m_metadata r ≫= md_text).
Definition get_source (r : Match) : string :=
  default "Unknown" (m_metadata r ≫= md_source).
Definition get_page (r : Match) : PageVal :=
  default (PageStr "Unknown") (m_metadata r ≫= md_page_num).

(** The text appended to [context_parts] for one match. *)
Definition context_part (r : Match) : string :=
  "[Source: " +:+ get_source r +:+ ", Page: " +:+ str_of_page (get_page r)
  +:+ "]" +:+ WebSearch.nl +:+ get_text r +:+ WebSearch.nl.

(** [sep.join(parts)] *)
Fixpoint join (sep : string) (parts : list string) : string :=
  match parts with
  | [] => ""
  | [p] => p
  | p :: rest => p +:+ sep +:+ join sep rest
  end.

(** ** src/udcpr_chatbot_streamlit.py *)

Module Streamlit.

(** [format_context_from_results(results)] *)
Definition format_context_from_results (results : list Match) : string :=
  match results with
  | [] => "No relevant information found in the UDCPR document."
  | _ =>
    let context_parts :=
      map context_part
        (List.filter (fun r => Py.truthy (get_text r) && Py.gt (get_score r) 0.5%float)
                     results) in
    match context_parts with
    | [] => "No sufficiently relevant information found in the UDCPR document."
    | _ => join WebSearch.nl context_parts
    end
  end.

Definition system_message : string :=
  "You are an expert assistant for the Unified Development Control and Promotion Regulations (UDCPR) for Maharashtra State, India. 
Your task is to provide accurate, helpful information about building regulations, zoning requirements, and development control rules based on the UDCPR document.

When answering:
1. Base your answers primarily on the provided context from the UDCPR document
2. If the context contains the information, provide detailed, accurate answers
3. If the context doesn't contain enough information, acknowledge the limitations
4. Be concise but thorough
5. Use bullet points or numbered lists for clarity when appropriate
6. If asked about something outside the scope of UDCPR, politely explain that you're focused on UDCPR regulations
7. If web search results are provided, you may use them to supplement your answer, but clearly indicate when information comes from external sources

Remember, your goal is to help users understand and navigate the UDCPR regulations accurately.".

(** [create_chat_prompt(query, context, web_search_context, chat_history)];
    [None] is Python's [None]. *)
Definition create_chat_prompt (query context : string)
    (web_search_context : option string) (chat_history : option (list ChatTurn))
    : list ChatTurn :=
  let messages := [mkTurn "system" system_message] in
  let messages :=
    match chat_history with
    | Some ((_ :: _) as h) => messages ++ Py.slice_last MAX_HISTORY_MESSAGES h
    | _ => messages
    end in
  let user_message :=
    "Question: " +:+ query +:+ WebSearch.nl +:+ WebSearch.nl
    +:+ "Relevant sections from the UDCPR document:" +:+ WebSearch.nl +:+ context in
  let user_message :=
    match web_search_context with
    | Some ((String _ _) as w) =>
        user_message +:+ WebSearch.nl +:+ WebSearch.nl
        +:+ "Additional information from web search:" +:+ WebSearch.nl +:+ w
    | _ => user_message
    end in
  messages ++ [mkTurn "user" user_message].

End Streamlit.

(** ** src/api_server.py *)

Module ApiServer.

(** An entry of [sources]: the dictionary with the keys ["source"],
    ["page"] and ["score"]. *)
Record Source : Type := mkSource {
  src_source : string;
  src_page : PageVal;
  src_score : float
}.

(** What [format_context_from_results] returns: a string alone, or a
    tuple of a string and a list. *)
Inductive Formatted : Type :=
| Bare (s : string)
| Pair (context : string) (sources : list Source).

Definition relevant (r : Match) : bool :=
  Py.truthy (get_text r) && Py.gt (get_score r) 0.3%float.

(** [format_context_from_results(results)] *)
Definition format_context_from_results (results : list Match) : Formatted :=
  match results with
  | [] => Bare "No relevant information found in the UDCPR document."
  | _ =>
    let kept := List.filter relevant results in
    let context_parts := map context_part kept in
    let sources :=
      map (fun r => mkSource (get_source r) (get_page r) (get_score r)) kept in
    match context_parts with
    | [] => Pair "No sufficiently relevant information found in the UDCPR document." []
    | _ => Pair (join WebSearch.nl context_parts) sources
    end
  end.

(** [context, sources = value].  A tuple of two unpacks to its
    components.  A string unpacks character by character, which raises
    unless it has exactly two characters; the one string the function
    returns alone has 52. *)
Definition unpack2 (v : Formatted) : option (string * list Source) :=
  match v with
  | Pair c s => Some (c, s)
  | Bare _ => None
  end.

Definition system_message : string :=
  "You are UDCPR Saathi, an expert assistant for the Unified Development Control and Promotion Regulations (UDCPR) for Maharashtra State, India. You are knowledgeable, helpful, and confident in providing information about building regulations, zoning, FSI, and development control rules.

IMPORTANT GUIDELINES:
1. **Be Confident**: When the context contains relevant information, provide detailed answers confidently. Don't say " +:+ Py.dquote +:+ "the document doesn't provide information" +:+ Py.dquote +:+ " if there's relevant content.

2. **Use Available Information**: Extract and synthesize information from the provided context. Even if it's not perfectly complete, provide what you know and build upon it with standard urban planning knowledge.

3. **Structure Your Answers**: 
   - Start with a direct answer
   - Provide specific details from UDCPR
   - Use bullet points or numbered lists for clarity
   - Include relevant regulations, measurements, and requirements

4. **For Common Terms**: 
   - Green Zone: Areas for environmental conservation, parks, open spaces with restricted development
   - Building Height: Provide specific UDCPR height limits based on road width, zoning, and area type
   - FSI/FAR: Floor Space Index regulations as per UDCPR zones

5. **Be Helpful**: If the exact information isn't in the context but you can infer from related UDCPR content, provide a helpful response and suggest consulting local authorities for specific cases.

6. **Tone**: Professional, knowledgeable, and helpful. You're here to make UDCPR regulations accessible and understandable.

Remember: You're an expert who knows UDCPR well. Be confident in your responses when you have relevant information.".

(** [create_chat_prompt(query, context, chat_history)]; [None] is
    Python's [None]. *)
Definition create_chat_prompt (query context : string)
    (chat_history : option (list ChatTurn)) : list ChatTurn :=
  let messages := [mkTurn "system" system_message] in
  let messages :=
    match chat_history with
    | Some ((_ :: _) as h) =>
        messages ++ map (fun msg => mkTurn (role msg) (content msg))
                        (Py.slice_last MAX_HISTORY_MESSAGES h)
    | _ => messages
    end in
  let user_message :=
    "Question: " +:+ query +:+ WebSearch.nl +:+ WebSearch.nl
    +:+ "Relevant sections from the UDCPR document:" +:+ WebSearch.nl +:+ context in
  messages ++ [mkTurn "user" user_message].

(** The body of a [POST /chat]. *)
Record ChatRequest : Type := mkRequest {
  req_message : string;
  req_session_id : option string;
  req_chat_history : option (list ChatTurn)
}.

Record ChatResponse : Type := mkResponse {
  resp_response : string;
  resp_session_id : string;
  resp_sources : list Source
}.

(** A value of the dictionary [sessions]. *)
Record Session : Type := mkSession {
  history : list ChatTurn;
  created_at : Z
}.

(** The step of the endpoint that raised. *)
Inductive Failure : Type :=
| SearchFailed
| UnpackFailed
| CompletionFailed.

(** The outcome of the endpoint: the response, or the [HTTPException]
    with status 500 raised by its handler. *)
Inductive Outcome : Type :=
| Ok200 (r : ChatResponse)
| Error500 (cause : Failure).

(** The services the endpoint calls: the UUID generator, the clock, the
    vector index ([None]: the call raised) and the completion service
    ([None]: the call raised). *)
Record Services : Type := mkServices {
  svc_uuid : string;
  svc_now : Z;
  svc_matches : option (list Match);
  svc_complete : list ChatTurn -> option string
}.

Definition set_history (h : list ChatTurn) (s : Session) : Session :=
  mkSession h (created_at s).

(** [chat(request)], on the dictionary [sessions]. *)
Definition chat (request : ChatRequest) (svc : Services)
    (sessions : gmap string Session) : gmap string Session * Outcome :=
  let session_id :=
    match req_session_id request with
    | Some ((String _ _) as s) => s
    | _ => svc_uuid svc
    end in
  let sessions :=
    match sessions !! session_id with
    | Some _ => sessions
    | None => <[session_id := mkSession [] (svc_now svc)]> sessions
    end in
  match svc_matches svc with
  | None => (sessions, Error500 SearchFailed)
  | Some results =>
    match unpack2 (format_context_from_results results) with
    | None => (sessions, Error500 UnpackFailed)
    | Some (context, sources) =>
      let stored := default [] (history <$> sessions !! session_id) in
      let chat_history :=
        match req_chat_history request with
        | Some ((_ :: _) as h) => h
        | _ => stored
        end in
      let messages :=
        create_chat_prompt (req_message request) context (Some chat_history) in
      match svc_complete svc messages with
      | None => (sessions, Error500 CompletionFailed)
      | Some assistant_response =>
        let h := update_history stored (req_message request) assistant_response in
        (alter (set_history h) session_id sessions,
         Ok200 (mkResponse assistant_response session_id sources))
      end
    end
  end.

End ApiServer.

(** ** src/chatbot_web.py *)

Module ChatbotWeb.

Definition greeting_patterns : list string :=
  ["hello"; "hi"; "hey"; "greetings"; "good morning"; "good afternoon";
   "good evening"; "how are you"; "what's up"; "howdy"].

Definition udcpr_keywords : list string :=
  ["udcpr"; "regulation"; "building"; "development"; "control"; "promotion";
   "maharashtra"; "construction"; "zoning"; "fsi"; "floor space"; "height";
   "setback"; "plot"; "land"; "urban"; "planning"; "architect"].

Definition external_info_keywords : list string :=
  ["recent"; "latest"; "new"; "update"; "amendment"; "change";
   "modified"; "revision"; "current"; "2023"; "2024"; "2025"; "added"; "removed";
   "most"; "latest"; "changes"; "amendments"; "notifications"; "news";
   "today"; "month"; "year"; "week"; "information"; "outside"; "weather";
   "temperature"; "forecast"; "rain"; "snow"; "wind"; "humidity"; "climate";
   "stock"; "price"; "market"; "company"; "business"; "economy"; "financial";
   "sports"; "game"; "match"; "score"; "team"; "player"; "tournament";
   "movie"; "film"; "show"; "series"; "actor"; "actress"; "director";
   "music"; "song"; "album"; "artist"; "band"; "concert"; "release";
   "politics"; "election"; "president"; "minister"; "government"; "policy";
   "health"; "disease"; "virus"; "pandemic"; "vaccine"; "treatment";
   "technology"; "device"; "gadget"; "app"; "software"; "hardware";
   "travel"; "flight"; "hotel"; "destination"; "vacation"; "tourism"].

Definition force_web_search_phrases : list string :=
  ["most recent"; "latest update"; "new rules"; "recent changes";
   "latest amendment"; "current version"; "updated regulation";
   "what are the most recent"; "what are the latest"; "recent notification";
   "search the web"; "look online"; "find online"; "internet"; "web search";
   "outside the document"; "external information"; "online information";
   "what is the temperature"; "how is the weather"; "what's the weather";
   "current temperature"; "weather forecast"; "what is the price of";
   "how much is"; "what happened"; "who won"; "when is"; "where is";
   "tell me about"; "find information"; "search for"; "look up"].

Definition location_keywords : list string :=
  ["usa"; "america"; "us"; "united states"; "texas"; "california"; "new york";
   "florida"; "chicago"; "los angeles"; "houston"; "phoenix"; "philadelphia";
   "san antonio"; "san diego"; "dallas"; "austin"; "san jose"; "india"; "delhi";
   "mumbai"; "bangalore"; "hyderabad"; "chennai"; "kolkata"; "europe"; "asia";
   "africa"; "australia"; "canada"; "mexico"; "brazil"; "china"; "japan";
   "russia"; "uk"; "france"; "germany"; "italy"; "spain"].

Definition question_starters : list string :=
  ["what is"; "how is"; "when is"; "where is"; "who is"; "why is";
   "can you tell me"; "do you know"; "i want to know"; "tell me about"].

Definition weather_terms : list string :=
  ["temperature"; "weather"; "forecast"; "rain"; "snow"; "wind"; "humidity";
   "climate"; "hot"; "cold"; "warm"; "cool"; "degrees"; "celsius"; "fahrenheit"].

Definition time_indicators : list string :=
  ["now"; "today"; "current"; "latest"; "recent"; "right now"; "at the moment";
   "currently"; "presently"; "this time"; "this moment"].

Definition is_greeting (prompt : string) : bool :=
  Py.any_in greeting_patterns (Py.lower prompt).
Definition is_udcpr_related (prompt : string) : bool :=
  Py.any_in udcpr_keywords (Py.lower prompt).
Definition needs_external_info (prompt : string) : bool :=
  Py.any_in external_info_keywords (Py.lower prompt).
Definition force_web_search (prompt : string) : bool :=
  Py.any_in force_web_search_phrases (Py.lower prompt).
Definition contains_location (prompt : string) : bool :=
  Py.any_in location_keywords (Py.lower prompt).

(** The special override: [temperature] or [weather] in the lowered text. *)
Definition weather_override (text : string) : bool :=
  Py.contains "temperature" (Py.lower text) || Py.contains "weather" (Py.lower text).

(** The nested function [is_non_udcpr_query(query)]; it reads
    [contains_location] and [is_udcpr_related] of the enclosing block. *)
Definition is_non_udcpr_query (contains_location is_udcpr_related : bool)
    (query : string) : bool :=
  if weather_override query then true
  else if Py.any_in question_starters (Py.lower query) && contains_location
          && negb is_udcpr_related then true
  else if Py.any_in weather_terms (Py.lower query) then true
  else if Py.any_in time_indicators (Py.lower query) && negb is_udcpr_related then true
  else if contains_location && negb is_udcpr_related then true
  else false.

(** The value of [has_relevant_results] at the end of the decision
    block: [true] skips the web search. *)
Definition has_relevant_results (prompt : string) (results : list Match) : bool :=
  let is_non_udcpr :=
    is_non_udcpr_query (contains_location prompt) (is_udcpr_related prompt) prompt in
  if weather_override prompt then false
  else if force_web_search prompt then false
  else if is_non_udcpr then false
  else if is_greeting prompt || (Py.len (Py.strip prompt) <? 8)%nat then true
  else if needs_external_info prompt then false
  else if contains_location prompt && negb (is_udcpr_related prompt) then false
  else any_score_above 0.95%float results.

(** The value of [web_search_context] after the block
    [if use_web_search: ...]: the web search runs when the decision is
    [false], and its formatted results are kept when the list is not
    empty. *)
Definition web_search_context (use_web_search : bool) (prompt : string)
    (results : list Match) (env : WebSearch.Env) : option string :=
  if use_web_search then
    if negb (has_relevant_results prompt results) then
      match WebSearch.perform_web_search prompt 3 env with
      | [] => None
      | web_results => Some (WebSearch.format_search_results_for_context web_results)
      end
    else None
  else None.

(** The prompt sent to the completion service.  The handler takes
    [format_context_from_results] and [create_chat_prompt] from the module
    [rag_chatbot]; the standalone application carries its own copies with
    the same parameters, which stand for them here. *)
Definition messages (use_web_search : bool) (prompt : string)
    (results : list Match) (env : WebSearch.Env) (chat_history : list ChatTurn)
    : list ChatTurn :=
  Streamlit.create_chat_prompt prompt
    (Streamlit.format_context_from_results results)
    (web_search_context use_web_search prompt results env)
    (Some chat_history).

End ChatbotWeb.

(** ** src/api_server.py: the session endpoints *)

Module ApiSessions.

(** The outcome of [DELETE /chat/{session_id}]: the message of the
    response, or the [HTTPException] with status 404. *)
Inductive ClearOutcome : Type :=
| Cleared (message : string)
| NotFound404.

(** [clear_session(session_id)], on the dictionary [sessions]. *)
Definition clear_session (session_id : string)
    (sessions : gmap string ApiServer.Session)
    : gmap string ApiServer.Session * ClearOutcome :=
  match sessions !! session_id with
  | Some _ =>
      (delete session_id sessions,
       Cleared ("Session " +:+ session_id +:+ " cleared"))
  | None => (sessions, NotFound404)
  end.

(** The session a request addresses: [request.session_id or
    str(uuid.uuid4())]. *)
Definition session_id_of (request : ApiServer.ChatRequest)
    (svc : ApiServer.Services) : string :=
  match ApiServer.req_session_id request with
  | Some ((String _ _) as s) => s
  | _ => ApiServer.svc_uuid svc
  end.

(** The history stored under an identifier, empty when there is none. *)
Definition stored_history (session_id : string)
    (sessions : gmap string ApiServer.Session) : list ChatTurn :=
  default [] (ApiServer.history <$> sessions !! session_id).

(** Every stored history has at most [MAX_HISTORY_MESSAGES] turns. *)
Definition bounded (sessions : gmap string ApiServer.Session) : Prop :=
  forall id s, sessions !! id = Some s ->
               (length (ApiServer.history s) <= MAX_HISTORY_MESSAGES)%nat.

End ApiSessions.

(** ** src/pipeline/query_interface.py *)

Module QueryInterface.

(** An entry of the list [format_search_results] returns. *)
Record FormattedResult : Type := mkFormatted {
  rank : nat;
  score : float;
  page : PageVal;
  text : string;
  source : string;
  chunk_id : string
}.

(** The dictionary built for the match at index [i]; [None] when
    [result["score"]] or [result["metadata"]] raises [KeyError]. *)
Definition format_result (i : nat) (result : Match) : option FormattedResult :=
  match m_score result, m_metadata result with
  | Some sc, Some md =>
      Some (mkFormatted (i + 1) sc
              (default (PageStr "Unknown") (md_page_num md))
              (default "" (md_text md))
              (default "Unknown" (md_source md))
              (m_id result))
  | _, _ => None
  end.

(** The loop [for i, result in enumerate(results)], from index [i] on. *)
Fixpoint format_from (i : nat) (results : list Match) : option (list FormattedResult) :=
  match results with
  | [] => Some []
  | result :: rest =>
      match format_result i result with
      | None => None
      | Some f =>
          match format_from (S i) rest with
          | None => None
          | Some fs => Some (f :: fs)
          end
      end
  end.

(** [format_search_results(results)]; [None] when it raises. *)
Definition format_search_results (results : list Match) : option (list FormattedResult) :=
  format_from 0 results.

End QueryInterface.

(** ** src/chat_handler.py: the web search after the decision *)

Module ChatHandlerWeb.

(** The value of [web_search_context] after the block
    [if use_web_search: ...], where [use_web_search] is
    [st.session_state.use_web_search and WEB_SEARCH_AVAILABLE]. *)
Definition web_search_context (session_use_web_search web_search_available : bool)
    (prompt : string) (results : list Match) (env : WebSearch.Env) : option string :=
  let use_web_search := session_use_web_search && web_search_available in
  if use_web_search then
    if negb (ChatHandler.has_relevant_results prompt results) then
      match WebSearch.perform_web_search prompt 3 env with
      | [] => None
      | web_results => Some (WebSearch.format_search_results_for_context web_results)
      end
    else None
  else None.

End ChatHandlerWeb.

(** ** A conversation: chat turns one after the other *)

(** The turns a list of exchanges (a prompt with its response) appends. *)
Definition transcript (exchanges : list (string * string)) : list ChatTurn :=
  flat_map (fun e => [mkTurn "user" e.1; mkTurn "assistant" e.2]) exchanges.

(** The history after the exchanges, updated at the end of each. *)
Definition after_exchanges (h : list ChatTurn) (exchanges : list (string * string))
    : list ChatTurn :=
  fold_left (fun h e => update_history h e.1 e.2) exchanges h.

(** A search result with none of its four fields empty. *)
Definition well_formed (r : WebSearch.WebResult) : bool :=
  Py.truthy (WebSearch.title r) && Py.truthy (WebSearch.link r)
  && Py.truthy (WebSearch.snippet r) && Py.truthy (WebSearch.source r).

(** * Properties *)

(** ** Substring tests *)

Lemma any_in_cons k keys s :
  Py.any_in (k :: keys) s = Py.contains k s || Py.any_in keys s.
Proof. reflexivity. Qed.

Lemma any_in_elem keys k s :
  In k keys -> Py.contains k s = true -> Py.any_in keys s = true.
Proof.
  intros Hin Hk. unfold Py.any_in. apply existsb_exists. exists k. by split.
Qed.

Lemma any_in_false keys k s :
  Py.any_in keys s = false -> In k keys -> Py.contains k s = false.
Proof.
  intros Hnone Hin. destruct (Py.contains k s) eqn:Hk; [|done].
  by rewrite (any_in_elem keys k s Hin Hk) in Hnone.
Qed.

(** ** The relevance classifier *)

Example chat_handler_fsi_query :
  ChatHandler.has_relevant_results "What is the FSI for residential zones?"
    [mkMatch "chunk-1" (Some 0.9%float) None] = true.
Proof. reflexivity. Qed.

Example chat_handler_threshold :
  ChatHandler.has_relevant_results "explain parking norms"
    [mkMatch "chunk-1" (Some 0.75%float) None] = false
  /\ ChatHandler.has_relevant_results "explain parking norms"
    [mkMatch "chunk-1" (Some 0.76%float) None] = true.
Proof. split; reflexivity. Qed.

Example chatbot_web_threshold :
  ChatbotWeb.has_relevant_results "explain parking norms" 
    [mkMatch "chunk-1" (Some 0.95%float) None] = false
  /\ ChatbotWeb.has_relevant_results "explain parking norms"
    [mkMatch "chunk-1" (Some 0.96%float) None] = true.
Proof. split; reflexivity. Qed.

(** C1: a query whose lowered text contains "most recent" makes the
    decision [false] (the web search runs) in both call paths, whatever
    the matches and their scores: the forced-search phrases are tested
    before the score rule. *)
Theorem C1_most_recent_forces_web_search (prompt : string) (results : list Match) :
  Py.contains "most recent" (Py.lower prompt) = true ->
  ChatHandler.has_relevant_results prompt results = false
  /\ ChatbotWeb.has_relevant_results prompt results = false.
Proof.
  intros Hphrase. split.
  - unfold ChatHandler.has_relevant_results.
    assert (ChatHandler.force_web_search prompt = true) as ->; [|done].
    apply (any_in_elem _ "most recent"); [|done]. by left.
  - unfold ChatbotWeb.has_relevant_results.
    destruct (ChatbotWeb.weather_override prompt); [done|].
    assert (ChatbotWeb.force_web_search prompt = true) as ->; [|done].
    apply (any_in_elem _ "most recent"); [|done]. by left.
Qed.

Lemma C1_witness :
  ChatHandler.has_relevant_results "What are the most recent UDCPR rules?"
    [mkMatch "a" (Some 0.99%float) None; mkMatch "b" (Some 0.99%float) None] = false
  /\ ChatbotWeb.has_relevant_results "What are the most recent UDCPR rules?"
    [mkMatch "a" (Some 0.99%float) None; mkMatch "b" (Some 0.99%float) None] = false.
Proof.
  apply (C1_most_recent_forces_web_search "What are the most recent UDCPR rules?").
  reflexivity.
Defined.

(** C4: for the query "hi", whose trimmed length is 2, the decision is
    [true] (the web search is skipped) in both call paths, with the empty
    list of matches as with any other. *)
Theorem C4_hi_skips_web_search :
  Py.len (Py.strip "hi") = 2
  /\ ChatHandler.has_relevant_results "hi" [] = true
  /\ ChatbotWeb.has_relevant_results "hi" [] = true
  /\ forall results : list Match,
       ChatHandler.has_relevant_results "hi" results = true
       /\ ChatbotWeb.has_relevant_results "hi" results = true.
Proof.
  repeat split; reflexivity.
Qed.

(** C10: greeting detection is a substring test.  When the lowered query
    contains "hi" anywhere, the decision is [true] whatever the matches,
    unless a test placed before the greeting test fires: the forced-search
    phrases in the chat handler; the weather override, the forced-search
    phrases and the non-UDCPR test in the web chatbot. *)
Theorem C10_greeting_is_substring_based (prompt : string) (results : list Match) :
  Py.contains "hi" (Py.lower prompt) = true ->
  (ChatHandler.force_web_search prompt = false ->
   ChatHandler.has_relevant_results prompt results = true)
  /\ (ChatbotWeb.weather_override prompt = false ->
      ChatbotWeb.force_web_search prompt = false ->
      ChatbotWeb.is_non_udcpr_query (ChatbotWeb.contains_location prompt)
        (ChatbotWeb.is_udcpr_related prompt) prompt = false ->
      ChatbotWeb.has_relevant_results prompt results = true).
Proof.
  intros Hhi. split.
  - intros Hforce. unfold ChatHandler.has_relevant_results. rewrite Hforce.
    assert (ChatHandler.is_greeting prompt = true) as ->; [|done].
    apply (any_in_elem _ "hi"); [|done]. right. by left.
  - intros Hweather Hforce Hnon. unfold ChatbotWeb.has_relevant_results.
    rewrite Hweather, Hforce, Hnon.
    assert (ChatbotWeb.is_greeting prompt = true) as ->; [|done].
    apply (any_in_elem _ "hi"); [|done]. right. by left.
Qed.

Lemma C10_witness :
  ChatHandler.has_relevant_results "explain the third schedule"
    [mkMatch "a" (Some 0.1%float) None] = true
  /\ ChatbotWeb.has_relevant_results "explain the third schedule"
    [mkMatch "a" (Some 0.1%float) None] = true.
Proof.
  destruct (C10_greeting_is_substring_based "explain the third schedule"
              [mkMatch "a" (Some 0.1%float) None] eq_refl) as [Hch Hweb].
  split; [apply Hch | apply Hweb]; reflexivity.
Defined.

(** "chicago" contains "hi": the chat handler takes it for a greeting,
    while the web chatbot's location test comes first. *)
Example chicago_is_a_greeting :
  ChatHandler.has_relevant_results "chicago" [] = true
  /\ ChatbotWeb.has_relevant_results "chicago" [] = false.
Proof. split; reflexivity. Qed.

(** ** The bounded history *)

Lemma slice_last_length {A} (n : nat) (l : list A) :
  (0 < n)%nat -> length (Py.slice_last n l) = Nat.min (length l) n.
Proof.
  intros Hn. unfold Py.slice_last. destruct n as [|n]; [lia|].
  rewrite length_skipn. lia.
Qed.

Lemma slice_last_suffix {A} (n : nat) (l : list A) :
  l = firstn (length l - length (Py.slice_last n l)) l ++ Py.slice_last n l.
Proof.
  unfold Py.slice_last. destruct n as [|n].
  - by rewrite Nat.sub_diag.
  - rewrite length_skipn.
    replace (length l - (length l - (length l - S n)))%nat
      with (length l - S n)%nat by lia.
    by rewrite firstn_skipn.
Qed.

Lemma limit_history_eq (h : list ChatTurn) :
  limit_history h = Py.slice_last MAX_HISTORY_MESSAGES h.
Proof.
  unfold limit_history, MAX_HISTORY_MESSAGES.
  destruct (10 <? length h)%nat eqn:Hlen; [done|].
  apply Nat.ltb_ge in Hlen. unfold Py.slice_last.
  by replace (length h - 10)%nat with 0%nat by lia.
Qed.

Example history_twelve_turns :
  let pair (n : string) := [mkTurn "user" ("q" +:+ n); mkTurn "assistant" ("a" +:+ n)] in
  let h5 := pair "1" ++ pair "2" ++ pair "3" ++ pair "4" ++ pair "5" in
  update_history h5 "q6" "a6" = pair "2" ++ pair "3" ++ pair "4" ++ pair "5" ++ pair "6".
Proof. reflexivity. Qed.

(** C5: whatever the history before, the history after a chat turn (the
    user turn and the assistant turn appended, then the truncation) has at
    most [MAX_HISTORY_MESSAGES] = 10 turns, and it is the tail of the
    sequence before truncation: only the oldest turns are dropped and the
    order is kept. *)
Theorem C5_history_bounded_most_recent (h : list ChatTurn) (prompt full_response : string) :
  let full := h ++ [mkTurn "user" prompt; mkTurn "assistant" full_response] in
  let h' := update_history h prompt full_response in
  MAX_HISTORY_MESSAGES = 10%nat
  /\ (length h' <= MAX_HISTORY_MESSAGES)%nat
  /\ length h' = Nat.min (length full) MAX_HISTORY_MESSAGES
  /\ h' = skipn (length full - length h') full
  /\ full = firstn (length full - length h') full ++ h'.
Proof.
  intros full h'. subst h'. unfold update_history.
  change (h ++ [mkTurn "user" prompt] ++ [mkTurn "assistant" full_response]) with full.
  rewrite limit_history_eq.
  assert (length (Py.slice_last MAX_HISTORY_MESSAGES full)
          = Nat.min (length full) MAX_HISTORY_MESSAGES) as Hlen
    by (apply slice_last_length; unfold MAX_HISTORY_MESSAGES; lia).
  split; [done|]. split; [lia|]. split; [done|]. split.
  - rewrite Hlen. unfold Py.slice_last, MAX_HISTORY_MESSAGES.
    f_equal. lia.
  - apply slice_last_suffix.
Qed.

(** The [/chat] endpoint stores exactly that history when it answers. *)
Lemma chat_stores_updated_history request svc sessions sessions' r :
  ApiServer.chat request svc sessions = (sessions', ApiServer.Ok200 r) ->
  exists old,
    ApiServer.history <$> sessions' !! ApiServer.resp_session_id r
    = Some (update_history old (ApiServer.req_message request) (ApiServer.resp_response r)).
Proof.
  unfold ApiServer.chat. intros Hchat.
  repeat case_match; simplify_eq; simpl;
    rewrite lookup_alter_eq; simplify_map_eq; eauto.
Qed.

(** ** The prompt assembler *)

(** C6: both [create_chat_prompt] functions return the system turn first,
    then the last [MAX_HISTORY_MESSAGES] turns of the history in their
    order, then one user turn; so the length is
    1 + min(len(history), MAX_HISTORY_MESSAGES) + 1, whatever the context
    and the web context hold. *)
Theorem C6_prompt_shape (query context : string) (web_search_context : option string)
    (chat_history : option (list ChatTurn)) :
  let h := default [] chat_history in
  let recent := skipn (length h - MAX_HISTORY_MESSAGES) h in
  (exists user_message,
     Streamlit.create_chat_prompt query context web_search_context chat_history
     = mkTurn "system" Streamlit.system_message :: recent ++ [mkTurn "user" user_message])
  /\ (exists user_message,
     ApiServer.create_chat_prompt query context chat_history
     = mkTurn "system" ApiServer.system_message :: recent ++ [mkTurn "user" user_message])
  /\ length (Streamlit.create_chat_prompt query context web_search_context chat_history)
     = (1 + Nat.min (length h) MAX_HISTORY_MESSAGES + 1)%nat
  /\ length (ApiServer.create_chat_prompt query context chat_history)
     = (1 + Nat.min (length h) MAX_HISTORY_MESSAGES + 1)%nat.
Proof.
  intros h recent.
  assert (forall l : list ChatTurn,
            map (fun msg => mkTurn (role msg) (content msg)) l = l) as Hmap.
  { induction l as [|[r c] l IH]; simpl; by f_equal. }
  assert (length recent = Nat.min (length h) MAX_HISTORY_MESSAGES) as Hlen.
  { subst recent. rewrite length_skipn. unfold MAX_HISTORY_MESSAGES. lia. }
  assert (exists u, Streamlit.create_chat_prompt query context web_search_context chat_history
     = mkTurn "system" Streamlit.system_message :: recent ++ [mkTurn "user" u]) as HS.
  { unfold Streamlit.create_chat_prompt. subst recent h.
    destruct chat_history as [[|t l]|]; eexists; reflexivity. }
  assert (exists u, ApiServer.create_chat_prompt query context chat_history
     = mkTurn "system" ApiServer.system_message :: recent ++ [mkTurn "user" u]) as HA.
  { unfold ApiServer.create_chat_prompt. subst recent h.
    destruct chat_history as [[|t l]|]; eexists; rewrite ?Hmap; reflexivity. }
  split; [done|]. split; [done|].
  destruct HS as [u ->], HA as [u' ->].
  simpl. rewrite !length_app, Hlen. simpl. lia.
Qed.

(** ** The web-search fallback *)

Section scraping.
Import WebSearch.

Lemma existsb_title_false (t : string) (results : list WebResult) :
  existsb (fun r' => String.eqb (title r') t) results = false ->
  t ∉ map title results.
Proof.
  induction results as [|r results IH]; simpl; intros Hno.
  - apply not_elem_of_nil.
  - apply orb_false_iff in Hno as [Hr Hrest].
    apply not_elem_of_cons. split; [|by apply IH].
    intros ->. by rewrite String.eqb_refl in Hr.
Qed.

Lemma existsb_title_true (t : string) (results : list WebResult) :
  existsb (fun r' => String.eqb (title r') t) results = true ->
  t ∈ map title results.
Proof.
  induction results as [|r results IH]; simpl; intros Hyes; [done|].
  apply orb_true_iff in Hyes as [Hr|Hrest].
  - apply String.eqb_eq in Hr as ->. apply list_elem_of_here.
  - apply list_elem_of_further. by apply IH.
Qed.

Lemma add_result_keeps engine results raw t :
  t ∈ map title results -> t ∈ map title (add_result engine results raw).
Proof.
  intros Hin. unfold add_result. repeat case_match; try done.
  rewrite map_app. apply elem_of_app. by left.
Qed.

Lemma add_result_adds engine results raw r :
  extract_result engine raw = Some r ->
  title r ∈ map title (add_result engine results raw).
Proof.
  intros Hr. unfold add_result. rewrite Hr.
  destruct (existsb _ results) eqn:Hdup; simpl.
  - by apply existsb_title_true.
  - rewrite map_app. apply elem_of_app. right. apply list_elem_of_here.
Qed.

Lemma add_result_NoDup engine results raw :
  NoDup (map title results) -> NoDup (map title (add_result engine results raw)).
Proof.
  intros Hnd. unfold add_result. destruct (extract_result engine raw) as [r|]; [|done].
  destruct (existsb _ results) eqn:Hdup; simpl; [done|].
  rewrite map_app. apply NoDup_app. split; [done|]. split.
  - intros t Ht Hr. apply list_elem_of_singleton in Hr as ->.
    by apply (existsb_title_false _ _ Hdup).
  - apply NoDup_singleton.
Qed.

Lemma fold_add_result_keeps engine raws results t :
  t ∈ map title results -> t ∈ map title (fold_left (add_result engine) raws results).
Proof.
  revert results. induction raws as [|raw raws IH]; simpl; intros results Hin; [done|].
  by apply IH, add_result_keeps.
Qed.

Lemma fold_add_result_adds engine raws results raw r :
  raw ∈ raws -> extract_result engine raw = Some r ->
  title r ∈ map title (fold_left (add_result engine) raws results).
Proof.
  revert results. induction raws as [|raw' raws IH]; simpl; intros results Hin Hr.
  - by apply elem_of_nil in Hin.
  - apply elem_of_cons in Hin as [->|Hin].
    + by apply fold_add_result_keeps, add_result_adds.
    + by apply IH.
Qed.

Lemma fold_add_result_NoDup engine raws results :
  NoDup (map title results) ->
  NoDup (map title (fold_left (add_result engine) raws results)).
Proof.
  revert results. induction raws as [|raw raws IH]; simpl; intros results Hnd; [done|].
  by apply IH, add_result_NoDup.
Qed.

Lemma scrape_engine_keeps n results e t :
  t ∈ map title results -> t ∈ map title (scrape_engine n results e).
Proof.
  intros Hin. unfold scrape_engine. destruct (e.2); [|done].
  by apply fold_add_result_keeps.
Qed.

Lemma scrape_engine_NoDup n results e :
  NoDup (map title results) -> NoDup (map title (scrape_engine n results e)).
Proof.
  intros Hnd. unfold scrape_engine. destruct (e.2); [|done].
  by apply fold_add_result_NoDup.
Qed.

Lemma fold_scrape_keeps n engines results t :
  t ∈ map title results ->
  t ∈ map title (fold_left (scrape_engine n) engines results).
Proof.
  revert results. induction engines as [|e engines IH]; simpl; intros results Hin; [done|].
  by apply IH, scrape_engine_keeps.
Qed.

Lemma fold_scrape_NoDup n engines results :
  NoDup (map title results) ->
  NoDup (map title (fold_left (scrape_engine n) engines results)).
Proof.
  revert results. induction engines as [|e engines IH]; simpl; intros results Hnd; [done|].
  by apply IH, scrape_engine_NoDup.
Qed.

Lemma fold_scrape_adds n engines results engine raws raw r :
  (engine, Some raws) ∈ engines ->
  raw ∈ Py.slice_to n raws ->
  extract_result engine raw = Some r ->
  title r ∈ map title (fold_left (scrape_engine n) engines results).
Proof.
  revert results. induction engines as [|e engines IH]; simpl; intros results He Hraw Hr.
  - by apply elem_of_nil in He.
  - apply elem_of_cons in He as [<-|He].
    + apply fold_scrape_keeps. unfold scrape_engine. simpl.
      by eapply fold_add_result_adds.
    + by eapply IH.
Qed.

End scraping.

Section fallback.
Import WebSearch.

Lemma weather_results_titles (w : Weather) :
  map title (weather_results w)
  = ["Current Weather in " +:+ location w; "Weather Forecast for " +:+ location w].
Proof. reflexivity. Qed.

Lemma weather_results_NoDup (w : Weather) : NoDup (map title (weather_results w)).
Proof.
  rewrite weather_results_titles. apply NoDup_cons. split.
  - intros Hin. apply list_elem_of_singleton in Hin. discriminate Hin.
  - apply NoDup_singleton.
Qed.

Lemma udcpr_results_NoDup (q : string) : NoDup (map title (udcpr_results q)).
Proof.
  unfold udcpr_results. repeat case_match; compute_done.
Qed.


Lemma synthetic_results_NoDup (query : string) :
  NoDup (map title (synthetic_results query)).
Proof.
  unfold synthetic_results. repeat case_match.
  - apply weather_results_NoDup.
  - apply udcpr_results_NoDup.
  - compute_done.
Qed.


(** What the function returns, branch by branch. *)
Lemma perform_web_search_eq (query : string) (num_results : Z) (env : Env) :
  perform_web_search query num_results env
  = if env_outer_error env then error_fallback
    else if env_direct_ok env then synthetic_results (rewrite_query query)
    else direct_failure_fallback.
Proof. reflexivity. Qed.

End fallback.


(** C8: for every query and every behaviour of the network, no two
    entries of the list returned by [perform_web_search] have the same
    title. *)
Theorem C8_web_search_titles_distinct (query : string) (num_results : Z)
    (env : WebSearch.Env) :
  NoDup (map WebSearch.title (WebSearch.perform_web_search query num_results env)).
Proof.
  rewrite perform_web_search_eq.
  destruct (WebSearch.env_outer_error env); [compute_done|].
  destruct (WebSearch.env_direct_ok env); [|compute_done].
  apply synthetic_results_NoDup.
Qed.

(** The list the loop over the engines builds has distinct titles too. *)
Lemma scraped_results_NoDup (num_results : Z) (env : WebSearch.Env) :
  NoDup (map WebSearch.title (WebSearch.scraped_results num_results env)).
Proof. apply fold_scrape_NoDup. simpl. apply NoDup_nil_2. Qed.

(** A page of DuckDuckGo with one usable result. *)
Example scraped_one_result :
  WebSearch.scraped_results 3
    (WebSearch.mkEnv
       (Some [WebSearch.mkRawResult (Some (" UDCPR 2020 ", Some "https://example.org/udcpr"))
                (Some "The regulations.")])
       None None true false)
  = [WebSearch.mkWebResult "UDCPR 2020" "https://example.org/udcpr" "The regulations."
       "DuckDuckGo"].
Proof. reflexivity. Qed.

(** Google's redirect links are cleaned, and a title seen before is not
    added again. *)
Example scraped_two_engines :
  WebSearch.scraped_results 3
    (WebSearch.mkEnv
       (Some [WebSearch.mkRawResult (Some ("A", Some "https://a.example")) None])
       None
       (Some [WebSearch.mkRawResult (Some ("A", Some "https://other.example")) None;
              WebSearch.mkRawResult (Some ("B", Some "/url?q=https://b.example&sa=U")) None])
       true false)
  = [WebSearch.mkWebResult "A" "https://a.example" "" "DuckDuckGo";
     WebSearch.mkWebResult "B" "https://b.example" "" "Google"].
Proof. reflexivity. Qed.

(** C3, as stated, fails: with a result scraped from DuckDuckGo the
    function still returns the canned fallback record. *)
Lemma C3_counterexample :
  ~ (forall (query : string) (num_results : Z) (env : WebSearch.Env),
       WebSearch.scraped_results num_results env <> [] ->
       WebSearch.perform_web_search query num_results env
       = WebSearch.scraped_results num_results env).
Proof.
  intros Hclaim.
  specialize (Hclaim "parking norms" 3%Z
    (WebSearch.mkEnv
       (Some [WebSearch.mkRawResult (Some (" UDCPR 2020 ", Some "https://example.org/udcpr"))
                (Some "The regulations.")])
       None None true false)).
  rewrite scraped_one_result in Hclaim.
  specialize (Hclaim ltac:(discriminate)).
  vm_compute in Hclaim. discriminate Hclaim.
Qed.

(** C3, amended: the loop over the engines aggregates the usable results
    of every engine that responds, without stopping at the first success
    and keeping one result per title; but the list it builds is never
    returned.  After the loop the function assigns the canned results
    anew: those keyed by the topic of the rewritten query when the direct
    request returns, the one-record fallback when it raises.  The value
    returned does not depend on what the engines yielded. *)
Theorem C3_scraped_aggregated_but_replaced (query : string) (num_results : Z)
    (env : WebSearch.Env) :
  NoDup (map WebSearch.title (WebSearch.scraped_results num_results env))
  /\ (forall engine raws raw r,
        (engine, Some raws) ∈ WebSearch.search_engines env ->
        raw ∈ Py.slice_to num_results raws ->
        WebSearch.extract_result engine raw = Some r ->
        WebSearch.title r ∈ map WebSearch.title (WebSearch.scraped_results num_results env))
  /\ WebSearch.perform_web_search query num_results env
     = (if WebSearch.env_outer_error env then WebSearch.error_fallback
        else if WebSearch.env_direct_ok env
             then WebSearch.synthetic_results (WebSearch.rewrite_query query)
             else WebSearch.direct_failure_fallback)
  /\ (forall duckduckgo bing google,
        WebSearch.perform_web_search query num_results
          (WebSearch.mkEnv duckduckgo bing google
             (WebSearch.env_direct_ok env) (WebSearch.env_outer_error env))
        = WebSearch.perform_web_search query num_results env).
Proof.
  split; [apply scraped_results_NoDup|].
  split; [|by split].
  intros engine raws raw r Hengine Hraw Hr.
  by eapply fold_scrape_adds.
Qed.

Lemma C3_witness :
  let env :=
    WebSearch.mkEnv
      (Some [WebSearch.mkRawResult (Some ("A", Some "https://a.example")) None])
      None
      (Some [WebSearch.mkRawResult (Some ("B", Some "/url?q=https://b.example&sa=U")) None])
      true false in
  "B" ∈ map WebSearch.title (WebSearch.scraped_results 3 env)
  /\ WebSearch.perform_web_search "parking norms" 3 env = WebSearch.general_fallback.
Proof.
  intros env.
  destruct (C3_scraped_aggregated_but_replaced "parking norms" 3 env)
    as (_ & Hadds & Hret & _).
  split; [|by rewrite Hret].
  apply (Hadds "Google"
           [WebSearch.mkRawResult (Some ("B", Some "/url?q=https://b.example&sa=U")) None]
           (WebSearch.mkRawResult (Some ("B", Some "/url?q=https://b.example&sa=U")) None)
           (WebSearch.mkWebResult "B" "https://b.example" "" "Google")).
  - unfold WebSearch.search_engines, env. simpl.
    apply list_elem_of_further, list_elem_of_further, list_elem_of_here.
  - apply list_elem_of_here.
  - reflexivity.
Defined.

(** ** The temperature query *)

Example texas_austin_query :
  map WebSearch.snippet
    (WebSearch.perform_web_search "what is the temperature in Austin Texas right now" 3
       (WebSearch.mkEnv None None None true false))
  = ["The current temperature in Austin is approximately "
       +:+ WebSearch.temp "82-97" "28-36"
       +:+ " with conditions partly cloudy with a chance of isolated thunderstorms. Weather patterns can change throughout the day, with temperatures typically peaking in the afternoon. The National Weather Service provides real-time updates for precise conditions.";
     "The forecast for Austin shows partly cloudy with a chance of isolated thunderstorms with temperatures around "
       +:+ WebSearch.temp "82-97" "28-36"
       +:+ ". Humidity levels are moderate to high, and wind speeds are generally light to moderate. For hourly predictions, precipitation chances, and extended outlooks, check reliable weather services."].
Proof. reflexivity. Qed.

(** Los Angeles and Miami are found by the name of the city alone. *)
Example miami_query :
  WebSearch.current_temp (WebSearch.weather_of "what is the temperature in miami right now")
  = WebSearch.temp "80-90" "27-32".
Proof. reflexivity. Qed.

(** C2: the query "what is the temperature in Austin right now".  The
    decision is [false] by the weather override and the web search runs;
    its formatted results are added to the user turn of the prompt.  But
    the Austin record is looked up only among queries that contain
    "texas": this query gets the records for "the requested location",
    whose temperature "varies by region", and no environment makes the
    returned list mention the range 82-97 F (28-36 C). *)
Theorem C2_austin_query_misses_austin_record :
  let q := "what is the temperature in Austin right now" in
  let generic :=
    WebSearch.mkWeather "the requested location" "https://www.weather.gov/"
      "varies by region" "varies by region" "the requested location" in
  (forall results, ChatbotWeb.has_relevant_results q results = false)
  /\ (forall duckduckgo bing google,
        WebSearch.perform_web_search q 3
          (WebSearch.mkEnv duckduckgo bing google true false)
        = WebSearch.weather_results generic)
  /\ (forall env,
        forallb (fun r => negb (Py.contains (WebSearch.temp "82-97" "28-36")
                                  (WebSearch.title r +:+ WebSearch.snippet r)))
          (WebSearch.perform_web_search q 3 env) = true)
  /\ (forall results duckduckgo bing google chat_history,
        exists question,
          last (ChatbotWeb.messages true q results
                  (WebSearch.mkEnv duckduckgo bing google true false) chat_history)
          = Some (mkTurn "user"
                    (question +:+ WebSearch.nl +:+ WebSearch.nl
                     +:+ "Additional information from web search:" +:+ WebSearch.nl
                     +:+ WebSearch.format_search_results_for_context
                           (WebSearch.weather_results generic)))).
Proof.
  intros q generic. split; [done|]. split; [done|]. split.
  - intros [d b g ok err]. rewrite perform_web_search_eq. simpl.
    destruct err; [reflexivity|]. destruct ok; reflexivity.
  - intros results d b g chat_history.
    set (env := WebSearch.mkEnv d b g true false).
    set (w := WebSearch.format_search_results_for_context
                (WebSearch.weather_results generic)).
    assert (ChatbotWeb.web_search_context true q results env = Some w) as Hctx
      by reflexivity.
    assert (exists c s, w = String c s) as (c & s & Hw)
      by (vm_compute; eauto).
    unfold ChatbotWeb.messages, Streamlit.create_chat_prompt.
    rewrite last_snoc, Hctx, Hw. eexists. reflexivity.
Qed.

(** ** The [/chat] endpoint *)

Example prompt_without_history :
  length (ApiServer.create_chat_prompt "What is the FSI for residential zones?"
            "context" None) = 2%nat
  /\ length (Streamlit.create_chat_prompt "What is the FSI for residential zones?"
            "context" None (Some [])) = 2%nat.
Proof. split; reflexivity. Qed.

Example prompt_with_long_history :
  let turn (n : string) := mkTurn "user" n in
  let h := map turn ["1"; "2"; "3"; "4"; "5"; "6"; "7"; "8"; "9"; "10"; "11"; "12"] in
  map content (Streamlit.create_chat_prompt "q" "c" (Some "w") (Some h))
  = [Streamlit.system_message; "3"; "4"; "5"; "6"; "7"; "8"; "9"; "10"; "11"; "12";
     "Question: q" +:+ WebSearch.nl +:+ WebSearch.nl
     +:+ "Relevant sections from the UDCPR document:" +:+ WebSearch.nl +:+ "c"
     +:+ WebSearch.nl +:+ WebSearch.nl
     +:+ "Additional information from web search:" +:+ WebSearch.nl +:+ "w"].
Proof. reflexivity. Qed.

Example format_context_one_match :
  ApiServer.format_context_from_results
    [mkMatch "chunk-7" (Some 0.9%float)
       (Some (mkMetadata (Some "FSI is 1.1") (Some "UDCPR.pdf") (Some (PageInt 42))));
     mkMatch "chunk-9" (Some 0.2%float)
       (Some (mkMetadata (Some "Parking") (Some "UDCPR.pdf") (Some (PageInt 50))))]
  = ApiServer.Pair
      ("[Source: UDCPR.pdf, Page: 42]" +:+ WebSearch.nl +:+ "FSI is 1.1" +:+ WebSearch.nl)
      [ApiServer.mkSource "UDCPR.pdf" (PageInt 42) 0.9%float].
Proof. reflexivity. Qed.

(** The string returned alone has 52 characters, so unpacking it into two
    names raises. *)
Lemma bare_result_not_two_chars :
  forall s, ApiServer.format_context_from_results [] = ApiServer.Bare s ->
            Py.len s = 52%nat.
Proof. intros s [= <-]. reflexivity. Qed.

Example chat_answers :
  let svc :=
    ApiServer.mkServices "uuid-1" 1700000000
      (Some [mkMatch "chunk-7" (Some 0.9%float)
               (Some (mkMetadata (Some "FSI is 1.1") (Some "UDCPR.pdf") (Some (PageInt 42))))])
      (fun _ => Some "The FSI is 1.1.") in
  let out := ApiServer.chat (ApiServer.mkRequest "What is the FSI?" None None) svc ∅ in
  out.2 = ApiServer.Ok200
            (ApiServer.mkResponse "The FSI is 1.1." "uuid-1"
               [ApiServer.mkSource "UDCPR.pdf" (PageInt 42) 0.9%float])
  /\ out.1 !! "uuid-1"
     = Some (ApiServer.mkSession
               [mkTurn "user" "What is the FSI?"; mkTurn "assistant" "The FSI is 1.1."]
               1700000000).
Proof. split; vm_compute; reflexivity. Qed.

(** C9: in the API server [format_context_from_results] returns a pair
    (context, sources) for every non-empty list of matches and a string
    alone for the empty list; the [/chat] endpoint unpacks the value into
    two names, so whenever the retrieval returns no match it ends with the
    internal error (status 500) at the unpacking, before the completion
    service is called, whatever the request and the stored history. *)
Theorem C9_chat_fails_without_matches :
  (forall (r : Match) (results : list Match),
     exists context sources,
       ApiServer.format_context_from_results (r :: results)
       = ApiServer.Pair context sources)
  /\ ApiServer.format_context_from_results []
     = ApiServer.Bare "No relevant information found in the UDCPR document."
  /\ (forall (request : ApiServer.ChatRequest) (svc : ApiServer.Services)
        (sessions : gmap string ApiServer.Session),
        ApiServer.svc_matches svc = Some [] ->
        (ApiServer.chat request svc sessions).2
        = ApiServer.Error500 ApiServer.UnpackFailed).
Proof.
  split; [|split; [done|]].
  - intros r results. unfold ApiServer.format_context_from_results.
    destruct (map context_part _); eauto.
  - intros request svc sessions Hnone. unfold ApiServer.chat.
    by rewrite Hnone.
Qed.

Lemma C9_witness :
  (ApiServer.chat (ApiServer.mkRequest "What is the FSI?" (Some "s1") None)
     (ApiServer.mkServices "uuid-1" 1700000000 (Some []) (fun _ => Some "answer"))
     (<["s1" := ApiServer.mkSession [mkTurn "user" "hello"; mkTurn "assistant" "hi"] 0]> ∅)).2
  = ApiServer.Error500 ApiServer.UnpackFailed.
Proof.
  destruct C9_chat_fails_without_matches as (_ & _ & Hchat).
  apply Hchat. reflexivity.
Defined.

(** ** Text: substrings and case *)

Section text.

Lemma append_cons (x : ascii) (a b : string) : String x a +:+ b = String x (a +:+ b).
Proof. reflexivity. Qed.

Lemma append_empty_l (a : string) : "" +:+ a = a.
Proof. reflexivity. Qed.

Lemma append_assoc (a b c : string) : (a +:+ b) +:+ c = a +:+ (b +:+ c).
Proof.
  induction a as [|x a IH]; [done|]. rewrite !append_cons. by f_equal.
Qed.

Lemma append_empty_r (a : string) : a +:+ "" = a.
Proof.
  induction a as [|x a IH]; [done|]. rewrite append_cons. by f_equal.
Qed.

Lemma append_length (a b : string) :
  String.length (a +:+ b) = (String.length a + String.length b)%nat.
Proof.
  induction a as [|x a IH]; [done|]. rewrite append_cons. simpl. by f_equal.
Qed.

Lemma startswith_app (p t : string) : Py.startswith p (p +:+ t) = true.
Proof.
  induction p as [|x p IH]; [done|].
  rewrite append_cons. simpl. by rewrite Ascii.eqb_refl.
Qed.

Lemma startswith_inv (p s : string) :
  Py.startswith p s = true -> exists t, s = p +:+ t.
Proof.
  revert s. induction p as [|x p IH]; intros s Hs.
  - by exists s.
  - destruct s as [|y s]; simpl in Hs; [done|].
    destruct (Ascii.eqb x y) eqn:Hxy; [|done].
    apply Ascii.eqb_eq in Hxy as ->.
    destruct (IH s Hs) as [t ->]. by exists t.
Qed.

Lemma contains_here (p b : string) : Py.contains p (p +:+ b) = true.
Proof.
  destruct (p +:+ b) eqn:Hpb; simpl.
  - destruct p; [done | discriminate Hpb].
  - rewrite <- Hpb, startswith_app. done.
Qed.

Lemma contains_intro (a p b : string) : Py.contains p (a +:+ p +:+ b) = true.
Proof.
  induction a as [|x a IH].
  - exact (contains_here p b).
  - rewrite append_cons. simpl. rewrite IH. apply orb_true_r.
Qed.

Lemma contains_inv (p s : string) :
  Py.contains p s = true -> exists a b, s = a +:+ p +:+ b.
Proof.
  induction s as [|x s IH]; simpl; intros Hs.
  - destruct p; [|done]. by exists "", "".
  - apply orb_true_iff in Hs as [Hs|Hs].
    + destruct (startswith_inv _ _ Hs) as [t Ht]. exists "", t. by rewrite Ht.
    + destruct (IH Hs) as (a & b & ->). by exists (String x a), b.
Qed.

Lemma contains_app_r (p a s : string) :
  Py.contains p s = true -> Py.contains p (a +:+ s) = true.
Proof.
  intros Hs. destruct (contains_inv _ _ Hs) as (u & v & ->).
  rewrite <- append_assoc. apply contains_intro.
Qed.

Lemma contains_app_l (p s b : string) :
  Py.contains p s = true -> Py.contains p (s +:+ b) = true.
Proof.
  intros Hs. destruct (contains_inv _ _ Hs) as (u & v & ->).
  rewrite !append_assoc. apply contains_intro.
Qed.

Lemma contains_trans (k p s : string) :
  Py.contains k p = true -> Py.contains p s = true -> Py.contains k s = true.
Proof.
  intros Hk Hp. destruct (contains_inv _ _ Hp) as (a & b & ->).
  by apply contains_app_r, contains_app_l.
Qed.

Lemma contains_refl (s : string) : Py.contains s s = true.
Proof. rewrite <- (append_empty_r s) at 2. apply contains_here. Qed.

Lemma lower_app (a b : string) : Py.lower (a +:+ b) = Py.lower a +:+ Py.lower b.
Proof.
  induction a as [|x a IH]; [done|].
  rewrite append_cons. simpl. rewrite append_cons. by f_equal.
Qed.

Lemma lower_char_idem (c : ascii) : Py.lower_char (Py.lower_char c) = Py.lower_char c.
Proof. by destruct c as [[] [] [] [] [] [] [] []]. Qed.


Lemma lower_idem (s : string) : Py.lower (Py.lower s) = Py.lower s.
Proof.
  induction s as [|x s IH]; simpl; [done|]. by rewrite lower_char_idem, IH.
Qed.





End text.

(** ** More on the relevance classifier *)

Section classifier.

Lemma any_score_above_incl (t : float) (rs rs' : list Match) :
  incl rs rs' -> any_score_above t rs = true -> any_score_above t rs' = true.
Proof.
  unfold any_score_above. intros Hincl Hrs.
  apply existsb_exists in Hrs as (r & Hr & Hscore).
  apply existsb_exists. exists r. split; [by apply Hincl | done].
Qed.

Lemma nonempty_incl (rs rs' : list Match) :
  incl rs rs' -> (0 <? length rs)%nat = true -> (0 <? length rs')%nat = true.
Proof.
  intros Hincl Hrs. destruct rs as [|r rs]; [done|].
  destruct rs' as [|r' rs']; [|done].
  destruct (Hincl r (or_introl eq_refl)).
Qed.

(** In the chat handler every forced-search phrase contains one of the
    external-information keywords. *)
Lemma chat_handler_force_needs_external (prompt : string) :
  ChatHandler.force_web_search prompt = true ->
  ChatHandler.needs_external_info prompt = true.
Proof.
  unfold ChatHandler.force_web_search, ChatHandler.needs_external_info, Py.any_in.
  intros Hforce. apply existsb_exists in Hforce as (phrase & Hin & Hphrase).
  assert (exists k, In k ChatHandler.external_info_keywords
                    /\ Py.contains k phrase = true) as (k & Hk & Hkp).
  { unfold ChatHandler.force_web_search_phrases in Hin. simpl in Hin.
    destruct Hin as [<-|[<-|[<-|[<-|[<-|[<-|[<-|[<-|[<-|[<-|[]]]]]]]]]]];
      [exists "recent" | exists "latest" | exists "new" | exists "recent"
      | exists "latest" | exists "current" | exists "update" | exists "recent"
      | exists "latest" | exists "recent"];
      (split; [unfold ChatHandler.external_info_keywords; simpl; tauto | reflexivity]). }
  apply existsb_exists. exists k. split; [done|].
  by apply (contains_trans k phrase).
Qed.

End classifier.


(** X2: more matches never turn a decision to skip the web search into a
    decision to run it: if the decision is [true] for a list of matches,
    it is [true] for every list that contains them. *)
Theorem X2_classifier_monotone (prompt : string) (results results' : list Match) :
  incl results results' ->
  (ChatHandler.has_relevant_results prompt results = true ->
   ChatHandler.has_relevant_results prompt results' = true)
  /\ (ChatbotWeb.has_relevant_results prompt results = true ->
      ChatbotWeb.has_relevant_results prompt results' = true).
Proof.
  intros Hincl. split.
  - unfold ChatHandler.has_relevant_results.
    destruct (ChatHandler.force_web_search prompt); [done|].
    destruct (ChatHandler.is_greeting prompt); [done|].
    destruct (Py.len (Py.strip prompt) <? 10)%nat; [done|]. simpl.
    destruct (ChatHandler.is_udcpr_related prompt && negb (ChatHandler.needs_external_info prompt));
      simpl.
    + destruct (0 <? length results)%nat eqn:Hany.
      * by rewrite (nonempty_incl _ _ Hincl Hany).
      * intros Hscore. rewrite (any_score_above_incl _ _ _ Hincl Hscore).
        by destruct (0 <? length results')%nat.
    + apply any_score_above_incl, Hincl.
  - unfold ChatbotWeb.has_relevant_results.
    repeat case_match; try done. apply any_score_above_incl, Hincl.
Qed.

Lemma X2_witness :
  ChatHandler.has_relevant_results "explain parking norms"
    [mkMatch "b" (Some 0.2%float) None; mkMatch "a" (Some 0.96%float) None] = true
  /\ ChatbotWeb.has_relevant_results "explain parking norms"
    [mkMatch "b" (Some 0.2%float) None; mkMatch "a" (Some 0.96%float) None] = true.
Proof.
  destruct (X2_classifier_monotone "explain parking norms"
              [mkMatch "a" (Some 0.96%float) None]
              [mkMatch "b" (Some 0.2%float) None; mkMatch "a" (Some 0.96%float) None])
    as [Hch Hweb].
  - intros r [<-|[]]. right. by left.
  - split; [apply Hch | apply Hweb]; reflexivity.
Defined.

(** X3: in the web chatbot a query that names a location and no UDCPR
    keyword always runs the web search; and the decision is [true] only
    for a greeting or a query shorter than 8 characters, or when the
    query holds no external-information keyword and a match scores above
    0.95. *)
Theorem X3_chatbot_web_decision_shape (prompt : string) (results : list Match) :
  (ChatbotWeb.contains_location prompt = true ->
   ChatbotWeb.is_udcpr_related prompt = false ->
   ChatbotWeb.has_relevant_results prompt results = false)
  /\ (ChatbotWeb.has_relevant_results prompt results = true ->
      (ChatbotWeb.is_greeting prompt = true
       \/ (Py.len (Py.strip prompt) < 8)%nat)
      \/ (ChatbotWeb.needs_external_info prompt = false
          /\ any_score_above 0.95%float results = true)).
Proof.
  split.
  - intros Hloc Hudcpr. unfold ChatbotWeb.has_relevant_results.
    destruct (ChatbotWeb.weather_override prompt) eqn:Hweather; [done|].
    destruct (ChatbotWeb.force_web_search prompt); [done|].
    assert (ChatbotWeb.is_non_udcpr_query (ChatbotWeb.contains_location prompt)
              (ChatbotWeb.is_udcpr_related prompt) prompt = true) as ->; [|done].
    unfold ChatbotWeb.is_non_udcpr_query. rewrite Hweather, Hloc, Hudcpr.
    repeat case_match; done.
  - unfold ChatbotWeb.has_relevant_results.
    destruct (ChatbotWeb.weather_override prompt); [done|].
    destruct (ChatbotWeb.force_web_search prompt); [done|].
    destruct (ChatbotWeb.is_non_udcpr_query _ _ _); [done|].
    destruct (ChatbotWeb.is_greeting prompt); [by left; left|].
    destruct (Py.len (Py.strip prompt) <? 8)%nat eqn:Hshort.
    { apply Nat.ltb_lt in Hshort. by left; right. }
    simpl. destruct (ChatbotWeb.needs_external_info prompt); [done|].
    destruct (_ && _); [done|]. by right.
Qed.

Lemma X3_witness :
  ChatbotWeb.has_relevant_results "parking rules in delhi"
    [mkMatch "a" (Some 0.99%float) None] = false
  /\ ((ChatbotWeb.is_greeting "explain parking norms" = true
       \/ (Py.len (Py.strip "explain parking norms") < 8)%nat)
      \/ (ChatbotWeb.needs_external_info "explain parking norms" = false
          /\ any_score_above 0.95%float [mkMatch "a" (Some 0.96%float) None] = true)).
Proof.
  split.
  - apply (X3_chatbot_web_decision_shape "parking rules in delhi"); reflexivity.
  - apply (X3_chatbot_web_decision_shape "explain parking norms"). reflexivity.
Defined.

(** X4: in the chat handler a query with a UDCPR keyword and no
    external-information keyword skips the web search as soon as the
    retrieval returned any match, whatever its score; with no match at
    all the web search is skipped only for a greeting or a query shorter
    than 10 characters. *)
Theorem X4_chat_handler_in_domain_rule (prompt : string) (results : list Match) :
  (ChatHandler.is_udcpr_related prompt = true ->
   ChatHandler.needs_external_info prompt = false ->
   results <> [] ->
   ChatHandler.has_relevant_results prompt results = true)
  /\ (ChatHandler.has_relevant_results prompt [] = true ->
      ChatHandler.is_greeting prompt = true
      \/ (Py.len (Py.strip prompt) < 10)%nat).
Proof.
  split.
  - intros Hudcpr Hext Hres. unfold ChatHandler.has_relevant_results.
    destruct (ChatHandler.force_web_search prompt) eqn:Hforce.
    { apply chat_handler_force_needs_external in Hforce. congruence. }
    rewrite Hudcpr, Hext. destruct results; [done|]. simpl.
    by rewrite !orb_true_r.
  - unfold ChatHandler.has_relevant_results.
    destruct (ChatHandler.force_web_search prompt); [done|].
    destruct (ChatHandler.is_greeting prompt); [by left|].
    destruct (Py.len (Py.strip prompt) <? 10)%nat eqn:Hshort.
    { apply Nat.ltb_lt in Hshort. by right. }
    simpl. by rewrite andb_false_r.
Qed.

Lemma X4_witness :
  ChatHandler.has_relevant_results "What is the FSI for residential zones?"
    [mkMatch "a" (Some 0.01%float) None] = true
  /\ (ChatHandler.is_greeting "hello there, friend" = true
      \/ (Py.len (Py.strip "hello there, friend") < 10)%nat).
Proof.
  split.
  - apply (X4_chat_handler_in_domain_rule "What is the FSI for residential zones?");
      [reflexivity | reflexivity | discriminate].
  - apply (X4_chat_handler_in_domain_rule "hello there, friend" []). reflexivity.
Defined.

(** ** More on the web-search fallback *)

Section websearch.
Import WebSearch.

Lemma weather_of_link (q : string) : Py.truthy (weather_link (weather_of q)) = true.
Proof. unfold weather_of. repeat case_match; reflexivity. Qed.

Lemma weather_results_well_formed (q : string) :
  forallb well_formed (weather_results (weather_of q)) = true.
Proof.
  unfold weather_results, well_formed. simpl. by rewrite weather_of_link.
Qed.

Lemma udcpr_results_well_formed (q : string) :
  forallb well_formed (udcpr_results q) = true.
Proof. unfold udcpr_results. repeat case_match; reflexivity. Qed.

Lemma udcpr_results_length (q : string) :
  (2 <= length (udcpr_results q) <= 3)%nat.
Proof. unfold udcpr_results. repeat case_match; simpl; lia. Qed.

Lemma synthetic_results_lower (query : string) :
  synthetic_results (Py.lower query) = synthetic_results query.
Proof. unfold synthetic_results. by rewrite lower_idem. Qed.

Lemma rewrite_query_lower (query : string) :
  Py.lower (rewrite_query (Py.lower query)) = Py.lower (rewrite_query query).
Proof.
  unfold rewrite_query. rewrite lower_idem.
  repeat case_match; rewrite ?lower_app, ?lower_idem; done.
Qed.

(** A query about the weather keeps being one after the rewriting. *)
Lemma rewrite_query_weather (query : string) :
  Py.contains "temperature" (Py.lower query) || Py.contains "weather" (Py.lower query) = true ->
  Py.contains "temperature" (Py.lower (rewrite_query query))
  || Py.contains "weather" (Py.lower (rewrite_query query)) = true.
Proof.
  intros Hw. unfold rewrite_query. rewrite Hw.
  case_match; [|done]. rewrite lower_app.
  apply orb_true_iff in Hw as [Hw|Hw]; apply orb_true_iff; [left|right];
    by apply contains_app_r.
Qed.

End websearch.

(** X5: [perform_web_search] does not use [num_results] for what it
    returns: the list is the same for every [num_results], and it always
    has one, two or three entries. *)
Theorem X5_web_search_ignores_num_results (query : string) (num_results : Z)
    (env : WebSearch.Env) :
  (forall num_results' : Z,
     WebSearch.perform_web_search query num_results' env
     = WebSearch.perform_web_search query num_results env)
  /\ (1 <= length (WebSearch.perform_web_search query num_results env) <= 3)%nat.
Proof.
  split; [done|]. rewrite perform_web_search_eq.
  destruct (WebSearch.env_outer_error env); [simpl; lia|].
  destruct (WebSearch.env_direct_ok env); [|simpl; lia].
  unfold WebSearch.synthetic_results. repeat case_match; try (simpl; lia).
  pose proof (udcpr_results_length (Py.lower (WebSearch.rewrite_query query))). lia.
Qed.

(** X6: every entry [perform_web_search] returns has a non-empty title,
    link, snippet and source. *)
Theorem X6_web_search_results_well_formed (query : string) (num_results : Z)
    (env : WebSearch.Env) :
  forallb well_formed (WebSearch.perform_web_search query num_results env) = true.
Proof.
  rewrite perform_web_search_eq.
  destruct (WebSearch.env_outer_error env); [reflexivity|].
  destruct (WebSearch.env_direct_ok env); [|reflexivity].
  unfold WebSearch.synthetic_results. repeat case_match.
  - apply weather_results_well_formed.
  - apply udcpr_results_well_formed.
  - reflexivity.
Qed.

(** X7: [perform_web_search] is case-insensitive: the query and its
    lowered form get the same results. *)
Theorem X7_web_search_case_insensitive (query : string) (num_results : Z)
    (env : WebSearch.Env) :
  WebSearch.perform_web_search (Py.lower query) num_results env
  = WebSearch.perform_web_search query num_results env.
Proof.
  rewrite !perform_web_search_eq.
  destruct (WebSearch.env_outer_error env); [done|].
  destruct (WebSearch.env_direct_ok env); [|done].
  rewrite <- (synthetic_results_lower (WebSearch.rewrite_query (Py.lower query))).
  rewrite <- (synthetic_results_lower (WebSearch.rewrite_query query)).
  by rewrite rewrite_query_lower.
Qed.

(** X8: the weather branch comes first.  For a query whose lowered text
    contains "temperature" or "weather", once the direct request has
    returned, the result is the pair of weather records, also when the
    query names the UDCPR or Maharashtra. *)
Theorem X8_weather_query_gets_weather_records (query : string) (num_results : Z)
    (duckduckgo bing google : option (list WebSearch.RawResult)) :
  Py.contains "temperature" (Py.lower query) || Py.contains "weather" (Py.lower query) = true ->
  let results :=
    WebSearch.perform_web_search query num_results
      (WebSearch.mkEnv duckduckgo bing google true false) in
  results = WebSearch.weather_results
              (WebSearch.weather_of (Py.lower (WebSearch.rewrite_query query)))
  /\ map WebSearch.source results = ["Weather Fallback"; "Weather Resources"].
Proof.
  intros Hweather results. subst results. rewrite perform_web_search_eq. simpl.
  unfold WebSearch.synthetic_results.
  by rewrite (rewrite_query_weather _ Hweather).
Qed.

Lemma X8_witness :
  map WebSearch.source
    (WebSearch.perform_web_search "weather rules for building sites in Maharashtra" 3
       (WebSearch.mkEnv None None None true false))
  = ["Weather Fallback"; "Weather Resources"].
Proof.
  apply (X8_weather_query_gets_weather_records
           "weather rules for building sites in Maharashtra" 3 None None None).
  reflexivity.
Defined.

(** X9: the rewriting only adds words around the query; a weather query
    ends up naming "current", "now" or "today"; and a query that is
    rewritten for one of the regulation or recency keywords ends up
    naming the UDCPR. *)
Theorem X9_rewrite_query_adds_qualifiers (query : string) :
  let q := Py.lower query in
  let q' := Py.lower (WebSearch.rewrite_query query) in
  (exists before_ after_, WebSearch.rewrite_query query = before_ +:+ query +:+ after_)
  /\ (Py.contains "temperature" q || Py.contains "weather" q = true ->
      Py.contains "current" q' || Py.contains "now" q' || Py.contains "today" q' = true)
  /\ (Py.contains "temperature" q || Py.contains "weather" q = false ->
      Py.any_in ["regulation"; "building"; "development"; "control"; "promotion";
                 "maharashtra"; "recent"; "latest"; "new"; "update"; "amendment"] q = true ->
      Py.contains "udcpr" q' = true).
Proof.
  intros q q'. subst q q'. split; [|split].
  - unfold WebSearch.rewrite_query. repeat case_match;
      first [ by exists "", ""; rewrite append_empty_r
            | by eexists _, ""; rewrite append_empty_r
            | by eexists _, _ ].
  - intros Hweather. unfold WebSearch.rewrite_query. rewrite Hweather.
    destruct (Py.contains "current" (Py.lower query)) eqn:Hc;
      [simpl; by rewrite Hc|].
    destruct (Py.contains "now" (Py.lower query)) eqn:Hn;
      [simpl; by rewrite Hn, orb_true_r|].
    destruct (Py.contains "today" (Py.lower query)) eqn:Ht;
      [simpl; by rewrite Ht, !orb_true_r|].
    reflexivity.
  - intros Hweather Hkey. unfold WebSearch.rewrite_query. rewrite Hweather.
    destruct (Py.contains "udcpr" (Py.lower query)) eqn:Hu; simpl.
    + case_match; [|done]. rewrite !lower_app. by apply contains_app_r, contains_app_l.
    + case_match.
      { rewrite lower_app. exact (contains_here "udcpr" (" " +:+ Py.lower query)). }
      case_match.
      { rewrite lower_app.
        exact (contains_intro "latest " "udcpr" (" updates maharashtra " +:+ Py.lower query)). }
      exfalso. unfold Py.any_in in *. simpl in *.
      repeat match goal with
             | H : _ || _ = false |- _ => apply orb_false_iff in H as [? ?]
             end.
      repeat match goal with
             | H : Py.contains _ _ = false |- _ => rewrite H in Hkey
             end.
      done.
Qed.

Lemma X9_witness :
  Py.contains "current" (Py.lower (WebSearch.rewrite_query "Weather in Pune"))
  || Py.contains "now" (Py.lower (WebSearch.rewrite_query "Weather in Pune"))
  || Py.contains "today" (Py.lower (WebSearch.rewrite_query "Weather in Pune")) = true
  /\ Py.contains "udcpr" (Py.lower (WebSearch.rewrite_query "new parking norms")) = true.
Proof.
  split.
  - apply (X9_rewrite_query_adds_qualifiers "Weather in Pune"). reflexivity.
  - apply (X9_rewrite_query_adds_qualifiers "new parking norms"); reflexivity.
Defined.

Section webcontext.
Import WebSearch.

Lemma combined_info_acc (results : list WebResult) (acc x : string) :
  Py.contains x acc = true ->
  Py.contains x
    (fold_left (fun acc r => acc +:+ (title r +:+ ":" +:+ nl) +:+ (snippet r +:+ nl +:+ nl))
       results acc) = true.
Proof.
  revert acc. induction results as [|r results IH]; intros acc Hacc; simpl; [done|].
  by apply IH, contains_app_l.
Qed.

Lemma combined_info_mentions (results : list WebResult) (acc : string) (r : WebResult) :
  In r results ->
  Py.contains (title r)
    (fold_left (fun acc r => acc +:+ (title r +:+ ":" +:+ nl) +:+ (snippet r +:+ nl +:+ nl))
       results acc) = true
  /\ Py.contains (snippet r)
    (fold_left (fun acc r => acc +:+ (title r +:+ ":" +:+ nl) +:+ (snippet r +:+ nl +:+ nl))
       results acc) = true.
Proof.
  revert acc. induction results as [|r' results IH]; intros acc Hin; [done|].
  destruct Hin as [->|Hin]; [|by apply IH].
  simpl. split; apply combined_info_acc, contains_app_r.
  - apply contains_app_l, contains_here.
  - apply contains_app_r, contains_here.
Qed.

(** The formatted context starts with one of the two headings. *)
Lemma format_context_heading (r : WebResult) (results : list WebResult) :
  exists rest,
    format_search_results_for_context (r :: results)
    = "Information " +:+ rest.
Proof.
  unfold format_search_results_for_context.
  destruct (existsb mentions_udcpr (r :: results));
    rewrite !append_assoc; eexists; reflexivity.
Qed.

Lemma format_context_truthy (results : list WebResult) :
  Py.truthy (format_search_results_for_context results) = true.
Proof.
  destruct results as [|r results]; [done|].
  by destruct (format_context_heading r results) as [rest ->].
Qed.

End webcontext.

(** X10: the context built from search results is never empty, and for a
    non-empty list it holds the title and the snippet of every result. *)
Theorem X10_web_context_holds_every_result (results : list WebSearch.WebResult) :
  Py.truthy (WebSearch.format_search_results_for_context results) = true
  /\ forall r, In r results ->
       Py.contains (WebSearch.title r)
         (WebSearch.format_search_results_for_context results) = true
       /\ Py.contains (WebSearch.snippet r)
         (WebSearch.format_search_results_for_context results) = true.
Proof.
  split; [apply format_context_truthy|].
  intros r Hin. destruct results as [|r0 results]; [done|].
  destruct (combined_info_mentions (r0 :: results) "" r Hin) as [Ht Hs].
  unfold WebSearch.format_search_results_for_context.
  fold (WebSearch.combined_info (r0 :: results)) in Ht, Hs.
  destruct (existsb WebSearch.mentions_udcpr (r0 :: results)).
  - split; do 7 apply contains_app_l; by apply contains_app_r.
  - split; do 6 apply contains_app_l; by apply contains_app_r.
Qed.

Lemma X10_witness :
  Py.contains "Weather Forecast for Texas, USA"
    (WebSearch.format_search_results_for_context
       (WebSearch.weather_results (WebSearch.weather_of "weather in texas"))) = true.
Proof.
  destruct (X10_web_context_holds_every_result
              (WebSearch.weather_results (WebSearch.weather_of "weather in texas")))
    as [_ Hall].
  destruct (Hall (nth 1 (WebSearch.weather_results (WebSearch.weather_of "weather in texas"))
                    (WebSearch.mkWebResult "" "" "" ""))) as [Htitle _].
  - right. left. reflexivity.
  - exact Htitle.
Defined.



Section scraped.
Import WebSearch.








End scraped.



Section links.

Lemma startswith_char (x c : ascii) (s : string) :
  Py.startswith (String x "") (String c s) = Ascii.eqb x c.
Proof. simpl. by destruct (Ascii.eqb x c). Qed.

Lemma before_char_free (x : ascii) (s : string) :
  Py.contains (String x "") (Py.before (String x "") s) = false.
Proof.
  induction s as [|c s IH]; [done|].
  cbn [Py.before]. rewrite startswith_char.
  destruct (Ascii.eqb x c) eqn:Hxc; [done|].
  cbn [Py.contains]. by rewrite startswith_char, Hxc, IH.
Qed.

Lemma before_char_app (x : ascii) (u rest : string) :
  Py.contains (String x "") u = false ->
  Py.before (String x "") (u +:+ String x rest) = u.
Proof.
  induction u as [|c u IH]; intros Hu.
  - rewrite append_empty_l. cbn [Py.before].
    by rewrite startswith_char, Ascii.eqb_refl.
  - cbn [Py.contains] in Hu. rewrite startswith_char in Hu.
    apply orb_false_iff in Hu as [Hxc Hu].
    rewrite append_cons. cbn [Py.before]. rewrite startswith_char, Hxc.
    by rewrite IH.
Qed.

(** A pattern without the character [x] cannot end beyond an [x]. *)
Lemma startswith_app_char (p s : string) (x : ascii) (t : string) :
  Py.contains (String x "") p = false ->
  Py.startswith p (s +:+ String x t) = Py.startswith p s.
Proof.
  revert s. induction p as [|y p IH]; intros s Hp.
  - by destruct (s +:+ String x t), s.
  - cbn [Py.contains] in Hp. rewrite startswith_char in Hp.
    apply orb_false_iff in Hp as [Hxy Hp].
    destruct s as [|c s].
    + rewrite append_empty_l. simpl.
      rewrite Ascii.eqb_sym in Hxy. by rewrite Hxy.
    + rewrite append_cons. simpl. destruct (Ascii.eqb y c); [|done].
      by apply IH.
Qed.

Lemma before_keeps_prefix (sep u : string) (x : ascii) (rest : string) :
  Py.contains (String x "") sep = false ->
  sep <> "" ->
  Py.contains sep u = false ->
  exists rest', Py.before sep (u +:+ String x rest) = u +:+ String x rest'.
Proof.
  intros Hsep Hne. induction u as [|c u IH]; intros Hu.
  - rewrite append_empty_l. cbn [Py.before].
    assert (Py.startswith sep (String x rest) = false) as ->.
    { destruct sep as [|y sep]; [done|].
      cbn [Py.contains] in Hsep. rewrite startswith_char in Hsep.
      apply orb_false_iff in Hsep as [Hxy _]. simpl.
      rewrite Ascii.eqb_sym in Hxy. by rewrite Hxy. }
    by eexists.
  - cbn [Py.contains] in Hu. apply orb_false_iff in Hu as [Hhere Hu].
    rewrite append_cons. cbn [Py.before]. rewrite <- append_cons.
    rewrite (startswith_app_char sep (String c u) x rest Hsep), Hhere.
    destruct (IH Hu) as [rest' ->]. by exists rest'.
Qed.

End links.

(** X13: the link of a scraped result.  For DuckDuckGo and Bing it is the
    [href] as found, and so it is for Google when the [href] is not a
    redirect.  A Google redirect [/url?q=<target>&<rest>] is cleaned to a
    link without ["&"], and to the target itself when the target holds
    neither ["&"] nor ["/url?q="]. *)
Theorem X13_google_redirect_cleaned :
  (forall href, WebSearch.extract_link "DuckDuckGo" href = default "" href
                /\ WebSearch.extract_link "Bing" href = default "" href)
  /\ (forall href, Py.startswith "/url?q=" href = false ->
                   WebSearch.extract_link "Google" (Some href) = href)
  /\ (forall x, Py.contains "&"
                  (WebSearch.extract_link "Google" (Some ("/url?q=" +:+ x))) = false)
  /\ (forall target rest,
        Py.contains "&" target = false ->
        Py.contains "/url?q=" target = false ->
        WebSearch.extract_link "Google"
          (Some ("/url?q=" +:+ target +:+ "&" +:+ rest)) = target).
Proof.
  split; [done|]. split; [|split].
  - intros href Hno. unfold WebSearch.extract_link. simpl default.
    change (String.eqb "Google" "Google") with true. cbv iota.
    by rewrite Hno.
  - intros x. unfold WebSearch.extract_link. simpl default.
    change (String.eqb "Google" "Google") with true. cbv iota.
    rewrite startswith_app.
    apply (before_char_free "&").
  - intros target rest Hamp Hsep. unfold WebSearch.extract_link. simpl default.
    change (String.eqb "Google" "Google") with true. cbv iota.
    rewrite startswith_app.
    change (Py.drop 7 ("/url?q=" +:+ target +:+ "&" +:+ rest))
      with (target +:+ String "&" rest).
    destruct (before_keeps_prefix "/url?q=" target "&" rest) as [rest' ->];
      [done | done | done |].
    by apply (before_char_app "&").
Qed.

Lemma X13_witness :
  WebSearch.extract_link "Google" (Some "https://b.example/page") = "https://b.example/page"
  /\ WebSearch.extract_link "Google"
       (Some ("/url?q=" +:+ "https://b.example/page" +:+ "&" +:+ "sa=U&ved=2ah"))
     = "https://b.example/page".
Proof.
  destruct X13_google_redirect_cleaned as (_ & Hplain & _ & Hredirect).
  split; [apply Hplain | apply Hredirect]; reflexivity.
Defined.

(** ** More on the bounded history *)

Section history.

Lemma slice_last_short {A} (n : nat) (l : list A) :
  (length l <= n)%nat -> Py.slice_last n l = l.
Proof.
  intros Hlen. unfold Py.slice_last. destruct n as [|n]; [done|].
  by replace (length l - S n)%nat with 0%nat by lia.
Qed.

(** Truncating, appending and truncating again is truncating once. *)
Lemma slice_last_app {A} (n : nat) (l x : list A) :
  (0 < n)%nat ->
  Py.slice_last n (Py.slice_last n l ++ x) = Py.slice_last n (l ++ x).
Proof.
  intros Hn. destruct (decide (length l <= n)%nat) as [Hle|Hgt].
  - by rewrite (slice_last_short n l Hle).
  - unfold Py.slice_last. destruct n as [|n]; [lia|].
    rewrite !length_app, length_skipn.
    replace (length l - (length l - S n) + length x - S n)%nat
      with (length x) by lia.
    replace (length l + length x - S n)%nat
      with ((length l - S n) + length x)%nat by lia.
    rewrite <- drop_drop. f_equal.
    rewrite drop_app_le by lia. done.
Qed.

Lemma update_history_eq (h : list ChatTurn) (prompt full_response : string) :
  update_history h prompt full_response
  = Py.slice_last MAX_HISTORY_MESSAGES
      (h ++ [mkTurn "user" prompt; mkTurn "assistant" full_response]).
Proof. unfold update_history. by rewrite limit_history_eq. Qed.

Lemma update_history_length (h : list ChatTurn) (prompt full_response : string) :
  (length (update_history h prompt full_response) <= MAX_HISTORY_MESSAGES)%nat.
Proof.
  rewrite update_history_eq, slice_last_length; unfold MAX_HISTORY_MESSAGES; lia.
Qed.

Lemma after_exchanges_cons h p r (exchanges : list (string * string)) :
  after_exchanges h ((p, r) :: exchanges)
  = after_exchanges (update_history h p r) exchanges.
Proof. reflexivity. Qed.

Lemma transcript_cons p r (exchanges : list (string * string)) :
  transcript ((p, r) :: exchanges)
  = [mkTurn "user" p; mkTurn "assistant" r] ++ transcript exchanges.
Proof. reflexivity. Qed.

Lemma after_exchanges_slice (h : list ChatTurn) (exchanges : list (string * string)) :
  after_exchanges (Py.slice_last MAX_HISTORY_MESSAGES h) exchanges
  = Py.slice_last MAX_HISTORY_MESSAGES (h ++ transcript exchanges).
Proof.
  revert h. induction exchanges as [|[p r] exchanges IH]; intros h.
  - change (transcript []) with (@nil ChatTurn). by rewrite app_nil_r.
  - rewrite after_exchanges_cons, transcript_cons, update_history_eq.
    rewrite slice_last_app by (unfold MAX_HISTORY_MESSAGES; lia).
    by rewrite IH, <- app_assoc.
Qed.

End history.

(** X14: truncating after every exchange is truncating once at the end.
    After one exchange or more, the history is the last
    [MAX_HISTORY_MESSAGES] turns of everything said so far, whatever the
    history was at the start; the same holds after no exchange when the
    history starts within the bound. *)
Theorem X14_history_is_tail_of_transcript (h : list ChatTurn)
    (exchanges : list (string * string)) :
  exchanges <> [] \/ (length h <= MAX_HISTORY_MESSAGES)%nat ->
  after_exchanges h exchanges
  = Py.slice_last MAX_HISTORY_MESSAGES (h ++ transcript exchanges)
  /\ (length (after_exchanges h exchanges) <= MAX_HISTORY_MESSAGES)%nat.
Proof.
  intros Hcase.
  assert (after_exchanges h exchanges
          = Py.slice_last MAX_HISTORY_MESSAGES (h ++ transcript exchanges)) as Heq.
  { destruct exchanges as [|[p r] exchanges].
    - destruct Hcase as [Hne|Hlen]; [done|].
      change (transcript []) with (@nil ChatTurn). rewrite app_nil_r.
      by rewrite slice_last_short.
    - rewrite after_exchanges_cons, transcript_cons, update_history_eq.
      by rewrite after_exchanges_slice, <- app_assoc. }
  split; [done|]. rewrite Heq, slice_last_length; unfold MAX_HISTORY_MESSAGES; lia.
Qed.

Lemma X14_witness :
  after_exchanges [] [("q1", "a1"); ("q2", "a2"); ("q3", "a3"); ("q4", "a4");
                      ("q5", "a5"); ("q6", "a6")]
  = Py.slice_last MAX_HISTORY_MESSAGES
      ([] ++ transcript [("q1", "a1"); ("q2", "a2"); ("q3", "a3"); ("q4", "a4");
                         ("q5", "a5"); ("q6", "a6")]).
Proof.
  apply X14_history_is_tail_of_transcript. left. discriminate.
Defined.

(** X15: a history that went through the update fits the prompt whole:
    the next prompt holds the system turn, every stored turn in order and
    the user turn, in both [create_chat_prompt] functions. *)
Theorem X15_prompt_keeps_stored_history (h : list ChatTurn)
    (prompt full_response query context : string) (web_search_context : option string) :
  let stored := update_history h prompt full_response in
  (exists user_message,
     Streamlit.create_chat_prompt query context web_search_context (Some stored)
     = mkTurn "system" Streamlit.system_message :: stored ++ [mkTurn "user" user_message])
  /\ (exists user_message,
     ApiServer.create_chat_prompt query context (Some stored)
     = mkTurn "system" ApiServer.system_message :: stored ++ [mkTurn "user" user_message]).
Proof.
  intros stored.
  assert (Py.slice_last MAX_HISTORY_MESSAGES stored = stored) as Hfit.
  { apply slice_last_short, update_history_length. }
  assert (exists t rest, stored = t :: rest) as (t & rest & Hstored).
  { subst stored. rewrite update_history_eq. unfold Py.slice_last, MAX_HISTORY_MESSAGES.
    destruct (drop _ _) eqn:Hdrop; [|by eauto].
    apply (f_equal length) in Hdrop. rewrite length_skipn, length_app in Hdrop.
    simpl in Hdrop. lia. }
  assert (forall l : list ChatTurn,
            map (fun msg => mkTurn (role msg) (content msg)) l = l) as Hmap.
  { induction l as [|[r c] l IH]; simpl; by f_equal. }
  split.
  - unfold Streamlit.create_chat_prompt. rewrite Hstored, <- Hstored, Hfit.
    eexists. reflexivity.
  - unfold ApiServer.create_chat_prompt. rewrite Hstored, <- Hstored, Hfit, Hmap.
    eexists. reflexivity.
Qed.

(** ** The session store of the API server *)

Section sessions.
Import ApiServer ApiSessions.

Lemma chat_sessions (request : ChatRequest) (svc : Services)
    (sessions : gmap string Session) :
  let sid := session_id_of request svc in
  let registered :=
    match sessions !! sid with
    | Some _ => sessions
    | None => <[sid := mkSession [] (svc_now svc)]> sessions
    end in
  (exists cause, chat request svc sessions = (registered, Error500 cause))
  \/ (exists response sources,
        chat request svc sessions
        = (alter (set_history
                    (update_history (stored_history sid registered)
                       (req_message request) response)) sid registered,
           Ok200 (mkResponse response sid sources))).
Proof.
  intros sid registered. unfold chat. fold (session_id_of request svc). fold sid.
  fold registered. fold (stored_history sid registered).
  destruct (svc_matches svc) as [results|]; [|by left; eexists].
  destruct (unpack2 _) as [[context sources]|]; [|by left; eexists].
  destruct (svc_complete svc _) as [response|]; [|by left; eexists].
  right. by exists response, sources.
Qed.

Lemma registered_lookup (sid : string) (now : Z) (sessions : gmap string Session) :
  let registered :=
    match sessions !! sid with
    | Some _ => sessions
    | None => <[sid := mkSession [] now]> sessions
    end in
  registered !! sid = Some (default (mkSession [] now) (sessions !! sid))
  /\ (forall id, id <> sid -> registered !! id = sessions !! id)
  /\ stored_history sid registered = stored_history sid sessions.
Proof.
  intros registered. subst registered. unfold stored_history.
  destruct (sessions !! sid) as [s|] eqn:Hs.
  - by rewrite ?Hs.
  - rewrite !lookup_insert_eq. split; [done|]. split; [|done].
    intros id Hid. by rewrite lookup_insert_ne.
Qed.

End sessions.

(** X16: a [POST /chat] touches one session only.  The session the
    request addresses (its [session_id], or a fresh UUID when that is
    absent or empty) is registered whatever the outcome, even when the
    request fails; every other session is left as it was; and a response
    carries the identifier of that session. *)
Theorem X16_chat_touches_one_session (request : ApiServer.ChatRequest)
    (svc : ApiServer.Services) (sessions : gmap string ApiServer.Session) :
  let sid := ApiSessions.session_id_of request svc in
  let out := ApiServer.chat request svc sessions in
  is_Some (out.1 !! sid)
  /\ (forall id, id <> sid -> out.1 !! id = sessions !! id)
  /\ (forall r, out.2 = ApiServer.Ok200 r -> ApiServer.resp_session_id r = sid).
Proof.
  intros sid out. subst out.
  destruct (registered_lookup sid (ApiServer.svc_now svc) sessions)
    as (Hsid & Hother & _).
  destruct (chat_sessions request svc sessions)
    as [[cause ->]|(response & sources & ->)]; fold sid; simpl.
  - split; [by rewrite Hsid|]. split; [done|]. done.
  - split; [by rewrite lookup_alter_eq, Hsid|]. split.
    + intros id Hid. rewrite lookup_alter_ne by done. by apply Hother.
    + by intros r [= <-].
Qed.

Lemma X16_witness :
  (ApiServer.chat (ApiServer.mkRequest "hello" (Some "") None)
     (ApiServer.mkServices "uuid-9" 5 None (fun _ => None))
     (<["s1" := ApiServer.mkSession [mkTurn "user" "q"] 1]> ∅)).1 !! "s1"
  = Some (ApiServer.mkSession [mkTurn "user" "q"] 1).
Proof.
  destruct (X16_chat_touches_one_session
              (ApiServer.mkRequest "hello" (Some "") None)
              (ApiServer.mkServices "uuid-9" 5 None (fun _ => None))
              (<["s1" := ApiServer.mkSession [mkTurn "user" "q"] 1]> ∅))
    as (_ & Hother & _).
  rewrite (Hother "s1"); [reflexivity | discriminate].
Defined.

(** X17: the store keeps every history within [MAX_HISTORY_MESSAGES]:
    the empty store does, and when a store does, so does the store after
    a [POST /chat] and after a [DELETE /chat/{session_id}]. *)
Theorem X17_store_histories_bounded :
  ApiSessions.bounded ∅
  /\ (forall request svc sessions,
        ApiSessions.bounded sessions ->
        ApiSessions.bounded (ApiServer.chat request svc sessions).1)
  /\ (forall session_id sessions,
        ApiSessions.bounded sessions ->
        ApiSessions.bounded (ApiSessions.clear_session session_id sessions).1).
Proof.
  split; [|split].
  - intros id s Hs. by rewrite lookup_empty in Hs.
  - intros request svc sessions Hb.
    set (sid := ApiSessions.session_id_of request svc).
    destruct (registered_lookup sid (ApiServer.svc_now svc) sessions)
      as (Hsid & Hother & _).
    assert (forall id s,
              match sessions !! sid with
              | Some _ => sessions
              | None => <[sid := ApiServer.mkSession [] (ApiServer.svc_now svc)]> sessions
              end !! id = Some s ->
              (length (ApiServer.history s) <= MAX_HISTORY_MESSAGES)%nat) as Hreg.
    { intros id s Hs. destruct (decide (id = sid)) as [->|Hne].
      - rewrite Hsid in Hs. injection Hs as <-.
        destruct (sessions !! sid) as [s0|] eqn:Hs0; simpl.
        + by apply (Hb sid).
        + unfold MAX_HISTORY_MESSAGES. lia.
      - rewrite (Hother id Hne) in Hs. by apply (Hb id). }
    destruct (chat_sessions request svc sessions)
      as [[cause ->]|(response & sources & ->)]; fold sid; simpl; [done|].
    intros id s Hs. destruct (decide (id = sid)) as [->|Hne].
    + rewrite lookup_alter_eq in Hs.
      destruct (_ !! sid) as [s0|]; [|done]. injection Hs as <-. simpl.
      apply update_history_length.
    + rewrite lookup_alter_ne in Hs by done. by apply (Hreg id).
  - intros session_id sessions Hb. unfold ApiSessions.clear_session.
    destruct (sessions !! session_id) as [s0|] eqn:Hs; simpl; [|done].
    intros id s Hid. apply lookup_delete_Some in Hid as [_ Hid]. by apply (Hb id).
Qed.

Lemma X17_witness :
  ApiSessions.bounded
    (ApiServer.chat (ApiServer.mkRequest "hello" None None)
       (ApiServer.mkServices "uuid-9" 5 (Some []) (fun _ => None)) ∅).1.
Proof.
  destruct X17_store_histories_bounded as (Hempty & Hchat & _).
  apply Hchat, Hempty.
Defined.

(** X18: [DELETE /chat/{session_id}].  For an unknown identifier the
    endpoint answers 404 and leaves the store as it is.  For a known one
    it removes that session and no other, and a second delete of the same
    identifier answers 404: the delete is not idempotent in its status. *)
Theorem X18_clear_session_removes_once (session_id : string)
    (sessions : gmap string ApiServer.Session) :
  (sessions !! session_id = None ->
   ApiSessions.clear_session session_id sessions
   = (sessions, ApiSessions.NotFound404))
  /\ (is_Some (sessions !! session_id) ->
      let out := ApiSessions.clear_session session_id sessions in
      out.2 = ApiSessions.Cleared ("Session " +:+ session_id +:+ " cleared")
      /\ out.1 !! session_id = None
      /\ (forall id, id <> session_id -> out.1 !! id = sessions !! id)
      /\ ApiSessions.clear_session session_id out.1
         = (out.1, ApiSessions.NotFound404)).
Proof.
  unfold ApiSessions.clear_session. split.
  - by intros ->.
  - intros [s Hs]. rewrite Hs. simpl. rewrite lookup_delete_eq.
    split; [done|]. split; [done|]. split; [|done].
    intros id Hid. by rewrite lookup_delete_ne.
Qed.

Lemma X18_witness :
  ApiSessions.clear_session "s2" (<["s1" := ApiServer.mkSession [] 1]> ∅)
  = (<["s1" := ApiServer.mkSession [] 1]> ∅, ApiSessions.NotFound404)
  /\ (ApiSessions.clear_session "s1" (<["s1" := ApiServer.mkSession [] 1]> ∅)).1 !! "s1"
     = None.
Proof.
  split.
  - apply (X18_clear_session_removes_once "s2"). reflexivity.
  - apply (X18_clear_session_removes_once "s1"). by eexists.
Defined.

(** X19: what a [POST /chat] stores.  When it answers, the history
    stored for the session is the update of the history stored before
    (empty for a new session) with the message and the response; the
    [chat_history] of the request serves the prompt only and is not
    stored; the creation time of a session that existed is kept.  When it
    fails, every session that existed is left as it was. *)
Theorem X19_chat_stores_from_stored_history (request : ApiServer.ChatRequest)
    (svc : ApiServer.Services) (sessions : gmap string ApiServer.Session) :
  let sid := ApiSessions.session_id_of request svc in
  let out := ApiServer.chat request svc sessions in
  (forall r, out.2 = ApiServer.Ok200 r ->
     ApiSessions.stored_history sid out.1
     = update_history (ApiSessions.stored_history sid sessions)
         (ApiServer.req_message request) (ApiServer.resp_response r)
     /\ ApiServer.created_at <$> out.1 !! sid
        = Some (default (ApiServer.svc_now svc)
                  (ApiServer.created_at <$> sessions !! sid)))
  /\ (forall cause, out.2 = ApiServer.Error500 cause ->
     forall id s, sessions !! id = Some s -> out.1 !! id = Some s).
Proof.
  intros sid out. subst out.
  destruct (registered_lookup sid (ApiServer.svc_now svc) sessions)
    as (Hsid & Hother & Hstored).
  destruct (chat_sessions request svc sessions)
    as [[cause ->]|(response & sources & ->)]; fold sid; simpl.
  - split; [done|]. intros _ _ id s Hs.
    destruct (decide (id = sid)) as [->|Hne].
    + by rewrite Hsid, Hs.
    + by rewrite (Hother id Hne).
  - split; [|done]. intros r [= <-]. simpl.
    unfold ApiSessions.stored_history at 1.
    rewrite lookup_alter_eq, Hsid, Hstored. simpl. split; [done|].
    by destruct (sessions !! sid).
Qed.

Lemma X19_witness :
  ApiSessions.stored_history "s1"
    (ApiServer.chat
       (ApiServer.mkRequest "What is the FSI?" (Some "s1")
          (Some [mkTurn "user" "from the client"]))
       (ApiServer.mkServices "uuid-9" 5
          (Some [mkMatch "c" (Some 0.9%float)
                   (Some (mkMetadata (Some "FSI is 1.1") None None))])
          (fun _ => Some "It is 1.1."))
       (<["s1" := ApiServer.mkSession [mkTurn "user" "q"; mkTurn "assistant" "a"] 1]> ∅)).1
  = [mkTurn "user" "q"; mkTurn "assistant" "a";
     mkTurn "user" "What is the FSI?"; mkTurn "assistant" "It is 1.1."].
Proof.
  destruct (X19_chat_stores_from_stored_history
       (ApiServer.mkRequest "What is the FSI?" (Some "s1")
          (Some [mkTurn "user" "from the client"]))
       (ApiServer.mkServices "uuid-9" 5
          (Some [mkMatch "c" (Some 0.9%float)
                   (Some (mkMetadata (Some "FSI is 1.1") None None))])
          (fun _ => Some "It is 1.1."))
       (<["s1" := ApiServer.mkSession [mkTurn "user" "q"; mkTurn "assistant" "a"] 1]> ∅))
    as [Hok _].
  destruct (Hok (ApiServer.mkResponse "It is 1.1." "s1"
                   [ApiServer.mkSource "Unknown" (PageStr "Unknown") 0.9%float]))
    as [Hhist _].
  - vm_compute. reflexivity.
  - exact Hhist.
Defined.

(** ** The document context *)

Section context.

Lemma filter_twice {A} (f : A -> bool) (l : list A) :
  List.filter f (List.filter f l) = List.filter f l.
Proof.
  induction l as [|a l IH]; simpl; [done|].
  destruct (f a) eqn:Hfa; simpl; [|done]. by rewrite Hfa, IH.
Qed.

Lemma filter_length_le {A} (f : A -> bool) (l : list A) :
  (length (List.filter f l) <= length l)%nat.
Proof.
  induction l as [|a l IH]; simpl; [lia|]. destruct (f a); simpl; lia.
Qed.

End context.

(** X20: the context and the sources of the API server.  For a non-empty
    list of matches the sources are, in rank order, exactly the matches
    that have a text and a score above 0.3, one source per kept match,
    and with none kept the context is the no-information text.  Filtering
    the matches beforehand changes nothing as long as one match passes,
    in the API server and in the standalone application (threshold 0.5);
    when none passes the two texts differ (empty list against no match
    relevant enough). *)
Theorem X20_context_keeps_relevant_matches (results : list Match) :
  (results <> [] ->
   exists context,
     ApiServer.format_context_from_results results
     = ApiServer.Pair context
         (map (fun r => ApiServer.mkSource (get_source r) (get_page r) (get_score r))
              (List.filter ApiServer.relevant results))
     /\ (List.filter ApiServer.relevant results = [] ->
         context = "No sufficiently relevant information found in the UDCPR document."))
  /\ (List.filter ApiServer.relevant results <> [] ->
      ApiServer.format_context_from_results (List.filter ApiServer.relevant results)
      = ApiServer.format_context_from_results results)
  /\ (let keep := fun r => Py.truthy (get_text r) && Py.gt (get_score r) 0.5%float in
      List.filter keep results <> [] ->
      Streamlit.format_context_from_results (List.filter keep results)
      = Streamlit.format_context_from_results results)
  /\ (results <> [] -> List.filter ApiServer.relevant results = [] ->
      ApiServer.format_context_from_results (List.filter ApiServer.relevant results)
      <> ApiServer.format_context_from_results results).
Proof.
  split; [|split; [|split]].
  - intros Hne. unfold ApiServer.format_context_from_results.
    destruct results as [|r results]; [done|].
    destruct (List.filter ApiServer.relevant (r :: results)) as [|k kept];
      simpl; eexists; split; done.
  - intros Hkept. unfold ApiServer.format_context_from_results.
    rewrite filter_twice.
    destruct results as [|r results]; [done|].
    by destruct (List.filter ApiServer.relevant (r :: results)).
  - intros keep Hkept. unfold Streamlit.format_context_from_results.
    fold keep. rewrite filter_twice.
    destruct results as [|r results]; [done|].
    by destruct (List.filter keep (r :: results)).
  - intros Hne Hnone. rewrite Hnone.
    unfold ApiServer.format_context_from_results.
    destruct results as [|r results]; [done|]. by rewrite Hnone.
Qed.

Lemma X20_witness :
  let results :=
    [mkMatch "c1" (Some 0.9%float) (Some (mkMetadata (Some "FSI is 1.1") None None));
     mkMatch "c2" (Some 0.2%float) (Some (mkMetadata (Some "Parking") None None))] in
  ApiServer.format_context_from_results (List.filter ApiServer.relevant results)
  = ApiServer.format_context_from_results results.
Proof.
  intros results.
  apply (X20_context_keeps_relevant_matches results). discriminate.
Defined.

(** ** The query interface *)

Section queryinterface.
Import QueryInterface.

Lemma format_from_spec (i : nat) (results : list Match) (fs : list FormattedResult) :
  format_from i results = Some fs ->
  map rank fs = seq (i + 1) (length results)
  /\ map chunk_id fs = map m_id results
  /\ map score fs = map get_score results.
Proof.
  revert i fs. induction results as [|r results IH]; intros i fs; simpl.
  - by intros [= <-].
  - unfold format_result.
    destruct (m_score r) as [sc|] eqn:Hsc; [|done].
    destruct (m_metadata r) as [md|]; [|done].
    destruct (format_from (S i) results) as [fs'|] eqn:Hrest; [|done].
    intros [= <-]. destruct (IH (S i) fs' Hrest) as (Hrank & Hid & Hscore).
    simpl. rewrite Hrank, Hid, Hscore. unfold get_score. rewrite Hsc.
    by replace (S i + 1)%nat with (S (i + 1)) by lia.
Qed.

Lemma format_from_is_Some (i : nat) (results : list Match) :
  is_Some (format_from i results)
  <-> Forall (fun r => is_Some (m_score r) /\ is_Some (m_metadata r)) results.
Proof.
  revert i. induction results as [|r results IH]; intros i; simpl.
  - split; [by constructor | by eexists].
  - unfold format_result. rewrite Forall_cons, <- (IH (S i)).
    destruct (m_score r), (m_metadata r), (format_from (S i) results);
      split; try (intros [? ?]; done); try (intros [[[? ?] [? ?]] [? ?]]; done);
      try (by intros _; repeat split; eexists).
Qed.

End queryinterface.

(** X21: [format_search_results] of the query interface.  It raises
    exactly when a match has no score or no metadata; otherwise it
    returns one entry per match in the same order, with ranks 1, 2, ...,
    and the identifiers and scores of the matches. *)
Theorem X21_format_search_results_ranks (results : list Match) :
  (is_Some (QueryInterface.format_search_results results)
   <-> Forall (fun r => is_Some (m_score r) /\ is_Some (m_metadata r)) results)
  /\ (forall fs, QueryInterface.format_search_results results = Some fs ->
        length fs = length results
        /\ map QueryInterface.rank fs = seq 1 (length results)
        /\ map QueryInterface.chunk_id fs = map m_id results
        /\ map QueryInterface.score fs = map get_score results).
Proof.
  split; [apply format_from_is_Some|].
  intros fs Hfs. destruct (format_from_spec 0 results fs Hfs) as (Hrank & Hid & Hscore).
  split; [|by split].
  apply (f_equal length) in Hid. by rewrite !length_map in Hid.
Qed.

Lemma X21_witness :
  map QueryInterface.rank
    [QueryInterface.mkFormatted 1 0.9%float (PageInt 4) "t1" "UDCPR.pdf" "c1";
     QueryInterface.mkFormatted 2 0.8%float (PageStr "Unknown") "" "Unknown" "c2"]
  = seq 1 2.
Proof.
  apply (X21_format_search_results_ranks
           [mkMatch "c1" (Some 0.9%float)
              (Some (mkMetadata (Some "t1") (Some "UDCPR.pdf") (Some (PageInt 4))));
            mkMatch "c2" (Some 0.8%float) (Some (mkMetadata None None None))]).
  reflexivity.
Defined.

(** ** Across the call paths *)

(** X22: every forced-search phrase of the chat handler is one of the web
    chatbot too: a query that holds one of them runs the web search in
    both call paths, whatever the matches. *)
Theorem X22_forced_phrases_shared (prompt : string) (results : list Match) :
  ChatHandler.force_web_search prompt = true ->
  ChatbotWeb.force_web_search prompt = true
  /\ ChatHandler.has_relevant_results prompt results = false
  /\ ChatbotWeb.has_relevant_results prompt results = false.
Proof.
  intros Hforce.
  assert (ChatbotWeb.force_web_search prompt = true) as Hweb.
  { unfold ChatHandler.force_web_search, Py.any_in in Hforce.
    apply existsb_exists in Hforce as (phrase & Hin & Hphrase).
    apply (any_in_elem _ phrase); [|done].
    unfold ChatHandler.force_web_search_phrases in Hin.
    unfold ChatbotWeb.force_web_search_phrases. simpl in *. tauto. }
  split; [done|]. split.
  - unfold ChatHandler.has_relevant_results. by rewrite Hforce.
  - unfold ChatbotWeb.has_relevant_results. rewrite Hweb.
    by destruct (ChatbotWeb.weather_override prompt).
Qed.

Lemma X22_witness :
  ChatbotWeb.has_relevant_results "any new rules for setbacks?"
    [mkMatch "a" (Some 0.99%float) None] = false.
Proof.
  apply (X22_forced_phrases_shared "any new rules for setbacks?"). reflexivity.
Defined.

(** X23: the update never drops the exchange it appends: the updated
    history ends with the user turn and the assistant turn just added,
    after a tail of the history before. *)
Theorem X23_update_keeps_newest_exchange (h : list ChatTurn)
    (prompt full_response : string) :
  update_history h prompt full_response
  = skipn (length h - (MAX_HISTORY_MESSAGES - 2)) h
    ++ [mkTurn "user" prompt; mkTurn "assistant" full_response].
Proof.
  rewrite update_history_eq. unfold Py.slice_last, MAX_HISTORY_MESSAGES.
  rewrite length_app. simpl length.
  rewrite drop_app_le by lia. do 2 f_equal. lia.
Qed.

(** X24: after a [POST /chat], also one that failed, a
    [DELETE /chat/{session_id}] for its session succeeds, and the store
    is then the store before the request without that session. *)
Theorem X24_chat_then_clear (request : ApiServer.ChatRequest)
    (svc : ApiServer.Services) (sessions : gmap string ApiServer.Session) :
  let sid := ApiSessions.session_id_of request svc in
  ApiSessions.clear_session sid (ApiServer.chat request svc sessions).1
  = (delete sid sessions,
     ApiSessions.Cleared ("Session " +:+ sid +:+ " cleared")).
Proof.
  intros sid.
  destruct (registered_lookup sid (ApiServer.svc_now svc) sessions)
    as (Hsid & Hother & _).
  assert (forall m : gmap string ApiServer.Session,
            is_Some (m !! sid) ->
            (forall id, id <> sid -> m !! id = sessions !! id) ->
            ApiSessions.clear_session sid m
            = (delete sid sessions,
               ApiSessions.Cleared ("Session " +:+ sid +:+ " cleared"))) as Hclear.
  { intros m [s Hs] Hm. unfold ApiSessions.clear_session. rewrite Hs.
    f_equal. apply map_eq. intros id. destruct (decide (id = sid)) as [->|Hne].
    - by rewrite !lookup_delete_eq.
    - rewrite !lookup_delete_ne by done. by apply Hm. }
  destruct (chat_sessions request svc sessions)
    as [[cause ->]|(response & sources & ->)]; fold sid; simpl; apply Hclear.
  - by rewrite Hsid.
  - done.
  - by rewrite lookup_alter_eq, Hsid.
  - intros id Hid. rewrite lookup_alter_ne by done. by apply Hother.
Qed.
